(** * Income/expense gap analysis: the ETL pipeline

    A shallow embedding of [src/process_data.py] (the normalizers and the
    joiner) and of the synthetic migration generator of
    [src/acquire_data.py], with the properties of the specification proved
    or refuted over it.

    Conventions of the embedding.
    - A float64 cell is a [spec_float] of the IEEE 754 binary64 format, with
      the correctly rounded operations of [SpecFloat]; the null of a numeric
      column is NaN, as pandas has it.
    - A cell of a text column is an [option string]; [None] is the null.
    - A DataFrame is a list of rows (a record per row) when its columns are
      fixed, and a header with a grid of cells when they are computed.
    - The raw and processed stores are records of optional file contents;
      a stage takes a store and returns its value, the new store and the
      messages it logged.
    - pandas is read with the semantics of the releases before 3.0, the
      ones under which the in-place [fillna] of the joiner acts on the
      merged table. *)

From Stdlib Require Import ZArith List String Ascii Bool Lia Permutation.
From Stdlib Require Import Floats.SpecFloat.
From Stdlib Require Import Sorting.Sorted.
Import ListNotations.
Local Open Scope Z_scope.

(** ** float64 *)

Module F64.

Definition prec : Z := 53.
Definition emax : Z := 1024.

Definition t : Type := spec_float.

Definition nan : t := S754_nan.
Definition mul : t -> t -> t := SFmul prec emax.
Definition div : t -> t -> t := SFdiv prec emax.
Definition add : t -> t -> t := SFadd prec emax.
Definition sub : t -> t -> t := SFsub prec emax.

(** [float(z)] of a Python integer, rounded to nearest even. *)
Definition of_Z (z : Z) : t := binary_normalize prec emax z 0 false.

Definition is_nan (x : t) : bool :=
  match x with S754_nan => true | _ => false end.



(** pandas' [isna] on a float column. *)
Definition isna : t -> bool := is_nan.

(** Python's [int(x)]: truncation toward zero; [ValueError] on NaN and
    [OverflowError] on an infinity, both [None] here. *)
Definition to_int (x : t) : option Z :=
  match x with
  | S754_nan => None
  | S754_infinity _ => None
  | S754_zero _ => Some 0
  | S754_finite s m e =>
      let a := match e with
               | Z0 => Zpos m
               | Zpos p => Zpos m * 2 ^ Zpos p
               | Zneg p => Zpos m / 2 ^ Zpos p
               end in
      Some (if s then - a else a)
  end.

Definition eq_dec (x y : t) : {x = y} + {x <> y}.
Proof.
  decide equality; try apply Z.eq_dec; try apply Pos.eq_dec; apply bool_dec.
Defined.

End F64.

(** ** Python strings *)

Module Py.

(** [pat in s]: [pat] occurs in [s]. *)
Definition contains (pat s : string) : bool :=
  match String.index 0 pat s with
  | Some _ => true
  | None => false
  end.

End Py.

(** ** Metro names and the state-code suffix

    Both the metro normalizer and the joiner use the pattern
    [, [A-Z]{2}(?:-[A-Z]{2})*$].  Python's [$] matches at the end of the
    string and also just before a newline that ends it. *)

Module MetroName.

Local Open Scope string_scope.

Definition upper (c : ascii) : bool :=
  let n := nat_of_ascii c in (Nat.leb 65 n && Nat.leb n 90)%bool.

(** [$]: what is left is empty or one final newline. *)
Definition at_end (s : string) : bool :=
  match s with
  | EmptyString => true
  | String c EmptyString => Ascii.eqb c "010"%char
  | _ => false
  end.

(** [codes s]: [s] is [[A-Z]{2}(?:-[A-Z]{2})*] followed by [$]; the
    result is the text of the codes and what follows them. *)
Fixpoint codes (s : string) : option (string * string) :=
  match s with
  | String a (String b r) =>
      if (upper a && upper b)%bool then
        if at_end r then Some (String a (String b EmptyString), r)
        else match r with
             | String d r' =>
                 if Ascii.eqb d "-"%char then
                   match codes r' with
                   | Some (g, rest) => Some (String a (String b (String d g)), rest)
                   | None => None
                   end
                 else None
             | EmptyString => None
             end
      else None
  | _ => None
  end.

(** The whole pattern anchored at the head of [s]. *)
Definition suffix_here (s : string) : option (string * string) :=
  match s with
  | String c (String d r) =>
      if (Ascii.eqb c ","%char && Ascii.eqb d " "%char)%bool then codes r else None
  | _ => None
  end.

(** [re.sub(pattern, '', s)]: the scan takes the leftmost position where
    the pattern matches, drops the match and keeps what follows it. *)
Fixpoint strip_suffix (s : string) : string :=
  match suffix_here s with
  | Some (_, rest) => rest
  | None => match s with
            | EmptyString => EmptyString
            | String c r => String c (strip_suffix r)
            end
  end.

(** [re.search(pattern, s)] and its first group. *)
Fixpoint search_state (s : string) : option string :=
  match suffix_here s with
  | Some (g, _) => Some g
  | None => match s with
            | EmptyString => None
            | String _ r => search_state r
            end
  end.

(** [Series.str.replace(pattern, '', regex=True)]: nulls stay null. *)
Definition str_replace_suffix (c : option string) : option string :=
  option_map strip_suffix c.

(** [Series.str.extract(pattern)]: null on a null cell and on no match. *)
Definition str_extract_state (c : option string) : option string :=
  match c with
  | Some s => search_state s
  | None => None
  end.

End MetroName.

(** ** Sorted unique labels, as pandas builds an index *)

Module Labels.

Section Sort.
Context {A : Type} (leb : A -> A -> bool).

Fixpoint insert (x : A) (l : list A) : list A :=
  match l with
  | [] => [x]
  | y :: r => if leb x y then x :: l else y :: insert x r
  end.

Definition sort (l : list A) : list A := fold_right insert [] l.
End Sort.

Section Unique.
Context {A : Type} (eqb : A -> A -> bool).

(** Two positions of [l] hold equal labels. *)
Fixpoint has_dup (l : list A) : bool :=
  match l with
  | [] => false
  | x :: r => existsb (eqb x) r || has_dup r
  end.

(** The distinct labels, each at its first occurrence. *)
Fixpoint unique (l : list A) : list A :=
  match l with
  | [] => []
  | x :: r => x :: filter (fun y => negb (eqb x y)) (unique r)
  end.
End Unique.

Definition pair_eqb {A B} (ea : A -> A -> bool) (eb : B -> B -> bool)
  (p q : A * B) : bool := ea (fst p) (fst q) && eb (snd p) (snd q).

Definition opt_eqb {A} (ea : A -> A -> bool) (p q : option A) : bool :=
  match p, q with
  | Some a, Some b => ea a b
  | None, None => true
  | _, _ => false
  end.

(** Lexicographic order on pairs of labels, for a two-level index. *)
Definition pair_leb {A B} (ea : A -> A -> bool) (la : A -> A -> bool)
  (lb : B -> B -> bool) (p q : A * B) : bool :=
  if ea (fst p) (fst q) then lb (snd p) (snd q) else la (fst p) (fst q).

End Labels.

(** ** Expenditure series: the long and the wide table *)

Module Bls.

(** A Series Record, one row of [bls_consumer_expenditure.csv].  The year
    is the integer [astype(int)] makes of the cell. *)
Record SeriesRecord := mkSeries {
  category : string;
  year : Z;
  value : F64.t
}.

(** The pivoted table after [reset_index]: the [year] column and the other
    columns in order, each a name and one cell per row. *)
Record Wide := mkWide {
  year_col : list Z;
  value_cols : list (string * list F64.t)
}.

Definition key (r : SeriesRecord) : string * Z := (category r, year r).

Definition key_eqb : string * Z -> string * Z -> bool :=
  Labels.pair_eqb String.eqb Z.eqb.

(** The cell of the pivot at [(c, y)]: the value of the record with that
    key, NaN when there is none. *)
Fixpoint cell (rs : list SeriesRecord) (c : string) (y : Z) : F64.t :=
  match rs with
  | [] => F64.nan
  | r :: rest => if key_eqb (key r) (c, y) then value r else cell rest c y
  end.

(** [df.pivot(index='year', columns='category', values='value')]: both
    axes are the sorted distinct labels; a repeated (year, category) pair
    raises [ValueError].  Then [reset_index], which raises when a category
    is itself named [year]. *)
Definition pivot (rs : list SeriesRecord) : option Wide :=
  if Labels.has_dup key_eqb (map key rs) then None
  else
    let years := Labels.sort Z.leb (Labels.unique Z.eqb (map year rs)) in
    let cats := Labels.sort String.leb (Labels.unique String.eqb (map category rs)) in
    if existsb (String.eqb "year") cats then None
    else Some (mkWide years
                 (map (fun c => (c, map (fun y => cell rs c y) years)) cats)).

(** [Series.pct_change()] with its defaults: the column is forward-filled
    ([fill_method='pad']), then divided by itself shifted one row down,
    minus one. *)
Fixpoint ffill_from (last : F64.t) (xs : list F64.t) : list F64.t :=
  match xs with
  | [] => []
  | x :: r => let y := if F64.isna x then last else x in y :: ffill_from y r
  end.

Definition ffill (xs : list F64.t) : list F64.t := ffill_from F64.nan xs.

Definition shift1 (xs : list F64.t) : list F64.t :=
  match xs with
  | [] => []
  | _ :: _ => F64.nan :: removelast xs
  end.

Fixpoint zip_with (f : F64.t -> F64.t -> F64.t) (xs ys : list F64.t) : list F64.t :=
  match xs, ys with
  | x :: xr, y :: yr => f x y :: zip_with f xr yr
  | _, _ => []
  end.

Definition pct_change (xs : list F64.t) : list F64.t :=
  let data := ffill xs in
  zip_with (fun a b => F64.sub (F64.div a b) (F64.of_Z 1)) data (shift1 data).

Definition times_100 (xs : list F64.t) : list F64.t :=
  map (fun x => F64.mul x (F64.of_Z 100)) xs.

(** [df[name]] and [df[name] = col] on the columns of a frame. *)
Fixpoint get_col (name : string) (cols : list (string * list F64.t)) : option (list F64.t) :=
  match cols with
  | [] => None
  | (n, c) :: r => if String.eqb n name then Some c else get_col name r
  end.

Fixpoint set_col (name : string) (col : list F64.t) (cols : list (string * list F64.t))
  : list (string * list F64.t) :=
  match cols with
  | [] => [(name, col)]
  | (n, c) :: r => if String.eqb n name then (n, col) :: r
                   else (n, c) :: set_col name col r
  end.

Definition pct_name (c : string) : string := (c ++ "_pct_change")%string.

(** The loop over [pivot_df.columns]: the labels are those the frame had
    when the loop started; each step reads the column as it is then. *)
Definition add_pct_step (cols : list (string * list F64.t)) (c : string)
  : list (string * list F64.t) :=
  if String.eqb c "year" then cols
  else match get_col c cols with
       | Some xs => set_col (pct_name c) (times_100 (pct_change xs)) cols
       | None => cols
       end.

Definition add_pct_changes (w : Wide) : Wide :=
  mkWide (year_col w)
         (fold_left add_pct_step ("year"%string :: map fst (value_cols w)) (value_cols w)).

(** Modelled from the spec: the melt of the wide table back to long form
    ("pivoting to wide form and back (melt)"), which the repository does
    not contain: one (category, year, value) row per value column and per
    row of the table, nulls included, as [DataFrame.melt(id_vars='year')]
    gives them. *)
Definition melt (w : Wide) : list SeriesRecord :=
  flat_map (fun nc => map (fun yv => mkSeries (fst nc) (fst yv) (snd yv))
                          (combine (year_col w) (snd nc)))
           (value_cols w).

End Bls.

(** ** Survey rows *)

Module Census.

(** A cell of a measure column as [read_csv] leaves it: a number, a text
    the reader could not type, or an empty cell. *)
Inductive raw_cell :=
| RawNum (x : F64.t)
| RawText (s : string)
| RawNull.

(** A row of [census_states_acs.csv] or [census_metros_acs.csv]; [raw_name]
    is the [state_name] or [metro_name] column. *)
Record RawRow := mkRaw {
  raw_name : option string;
  raw_income : raw_cell;
  raw_population : raw_cell;
  raw_rent : raw_cell
}.

(** A processed state row. *)
Record SurveyRow := mkSurvey {
  name : option string;
  median_household_income : F64.t;
  total_population : F64.t;
  median_gross_rent : F64.t;
  rent_to_income_ratio : F64.t
}.

(** A processed metro row: the survey columns and [state]. *)
Record MetroRow := mkMetro {
  metro : SurveyRow;
  state : option string
}.

Definition metro_name (m : MetroRow) : option string := name (metro m).

Section Normalizer.
(** The conversion of a text to a number inside [pd.to_numeric]; it is
    pandas' own, and [None] is a text it refuses. *)
Variable str_to_float : string -> option F64.t.

(** [pd.to_numeric(col, errors='coerce')]. *)
Definition to_numeric_coerce (c : raw_cell) : F64.t :=
  match c with
  | RawNum x => x
  | RawText s => match str_to_float s with Some x => x | None => F64.nan end
  | RawNull => F64.nan
  end.

(** [(df['median_gross_rent'] * 12) / df['median_household_income']]. *)
Definition ratio (rent income : F64.t) : F64.t :=
  F64.div (F64.mul rent (F64.of_Z 12)) income.

Definition process_row (r : RawRow) : SurveyRow :=
  let income := to_numeric_coerce (raw_income r) in
  let population := to_numeric_coerce (raw_population r) in
  let rent := to_numeric_coerce (raw_rent r) in
  mkSurvey (raw_name r) income population rent (ratio rent income).

Definition process_states (df : list RawRow) : list SurveyRow :=
  map process_row df.

Definition process_metros (df : list RawRow) : list MetroRow :=
  map (fun r => mkMetro (process_row r) (MetroName.str_extract_state (raw_name r))) df.
End Normalizer.

End Census.

(** ** Rent benchmark frames *)

Module Hud.

Inductive column :=
| NumCol (xs : list F64.t)
| TextCol (xs : list (option string)).

(** A frame with the columns the archive happened to have. *)
Definition Frame : Type := list (string * column).

Definition columns (df : Frame) : list string := map fst df.

Definition has_column (df : Frame) (c : string) : bool :=
  existsb (String.eqb c) (columns df).

Fixpoint get (c : string) (df : Frame) : option column :=
  match df with
  | [] => None
  | (n, col) :: r => if String.eqb n c then Some col else get c r
  end.

(** [df[cols]]: [KeyError] ([None]) on a label the frame lacks. *)
Fixpoint select (cols : list string) (df : Frame) : option Frame :=
  match cols with
  | [] => Some []
  | c :: r => match get c df, select r df with
              | Some col, Some rest => Some ((c, col) :: rest)
              | _, _ => None
              end
  end.

Fixpoint assign (c : string) (col : column) (df : Frame) : Frame :=
  match df with
  | [] => [(c, col)]
  | (n, old) :: r => if String.eqb n c then (n, col) :: r else (n, old) :: assign c col r
  end.

Definition cols_to_keep : list string :=
  ["area_name"; "state"; "county_code"; "fmr_0"; "fmr_1"; "fmr_2"; "fmr_3"; "fmr_4"]%string.

Definition startswith_fmr (c : string) : bool := String.prefix "fmr_" c.

Section Normalizer.
(** [DataFrame.mean(axis=1)], pandas' own; [None] is an exception it
    raises (a column it cannot average). *)
Variable mean_axis1 : Frame -> option (list F64.t).

(** The body of the inner [try]; [None] is an exception out of it. *)
Definition select_and_average (df : Frame) : option Frame :=
  let keep := filter (has_column df) cols_to_keep in
  match select keep df with
  | None => None
  | Some processed_df =>
      let rent_cols := filter startswith_fmr (columns processed_df) in
      match rent_cols with
      | [] => Some processed_df
      | _ :: _ =>
          match select rent_cols processed_df with
          | None => None
          | Some rents =>
              match mean_axis1 rents with
              | None => None
              | Some avg => Some (assign "avg_rent" (NumCol avg) processed_df)
              end
          end
      end
  end.
End Normalizer.

(** One possible [mean(axis=1)]: the mean of the non-null cells of a row,
    null when it has none, and [TypeError] on a text column. *)
Fixpoint numeric_columns (df : Frame) : option (list (list F64.t)) :=
  match df with
  | [] => Some []
  | (_, NumCol xs) :: r => option_map (cons xs) (numeric_columns r)
  | (_, TextCol _) :: _ => None
  end.

Definition row_mean (cells : list F64.t) : F64.t :=
  let present := filter (fun x => negb (F64.isna x)) cells in
  match present with
  | [] => F64.nan
  | _ :: _ => F64.div (fold_left F64.add present (S754_zero false))
                      (F64.of_Z (Z.of_nat (List.length present)))
  end.

Fixpoint transpose (n : nat) (cols : list (list F64.t)) : list (list F64.t) :=
  match n with
  | O => []
  | S k => map (hd F64.nan) cols :: transpose k (map (@tl F64.t) cols)
  end.

Definition strict_mean_axis1 (df : Frame) : option (list F64.t) :=
  match numeric_columns df with
  | None => None
  | Some cols => Some (map row_mean (transpose (List.length (hd [] cols)) cols))
  end.

End Hud.

(** ** Migration edges and their aggregates *)

Module Migration.

(** A row of [synthetic_migration_data.csv] as [read_csv] gives it: an
    empty key cell is a null. *)
Record Edge := mkEdge {
  year : option Z;
  origin_metro : option string;
  destination_metro : option string;
  num_migrants : Z
}.

(** A row of the inflow view and of [processed_migration_inflow.csv]. *)
Record InflowRow := mkInflow {
  in_destination_metro : option string;
  in_year : option Z;
  total_inflow : Z
}.

(** A row of the outflow view. *)
Record OutflowRow := mkOutflow {
  out_origin_metro : option string;
  out_year : option Z;
  total_outflow : Z
}.

(** The destinations table: one row per (origin, year), one column per
    destination. *)
Record Destinations := mkDestinations {
  dest_index : list (string * Z);
  dest_cols : list (string * list Z)
}.

Definition group_key : Type := (string * Z)%type.

Definition key_eqb : group_key -> group_key -> bool :=
  Labels.pair_eqb String.eqb Z.eqb.

Definition key_leb : group_key -> group_key -> bool :=
  Labels.pair_leb String.eqb String.leb Z.leb.

(** The key of a row under [groupby([name, 'year'])]; a row with a null in
    a key column belongs to no group ([dropna=True]). *)
Definition key_of (name : Edge -> option string) (e : Edge) : option group_key :=
  match name e, year e with
  | Some n, Some y => Some (n, y)
  | _, _ => None
  end.

Definition in_group (name : Edge -> option string) (k : group_key) (e : Edge) : bool :=
  match key_of name e with
  | Some k' => key_eqb k' k
  | None => false
  end.

Fixpoint keys_of (name : Edge -> option string) (df : list Edge) : list group_key :=
  match df with
  | [] => []
  | e :: r => match key_of name e with
              | Some k => k :: keys_of name r
              | None => keys_of name r
              end
  end.

Definition sum_Z (l : list Z) : Z := fold_right Z.add 0 l.

(** [df.groupby([name, 'year'])['num_migrants'].sum().reset_index()]: the
    groups in the order of their sorted keys, each with its sum. *)
Definition groupby_sum (name : Edge -> option string) (df : list Edge)
  : list (group_key * Z) :=
  map (fun k => (k, sum_Z (map num_migrants (filter (in_group name k) df))))
      (Labels.sort key_leb (Labels.unique key_eqb (keys_of name df))).

Definition inflow_by_dest (df : list Edge) : list InflowRow :=
  map (fun g => mkInflow (Some (fst (fst g))) (Some (snd (fst g))) (snd g))
      (groupby_sum destination_metro df).

Definition outflow_by_origin (df : list Edge) : list OutflowRow :=
  map (fun g => mkOutflow (Some (fst (fst g))) (Some (snd (fst g))) (snd g))
      (groupby_sum origin_metro df).

(** [pivot_table(index=['origin_metro', 'year'], columns='destination_metro',
    values='num_migrants', aggfunc='sum', fill_value=0).reset_index()]. *)
Definition complete (e : Edge) : bool :=
  match origin_metro e, year e, destination_metro e with
  | Some _, Some _, Some _ => true
  | _, _, _ => false
  end.

Definition at_cell (k : group_key) (d : string) (e : Edge) : bool :=
  in_group origin_metro k e && Labels.opt_eqb String.eqb (destination_metro e) (Some d).

Fixpoint somes {A} (l : list (option A)) : list A :=
  match l with
  | [] => []
  | Some a :: r => a :: somes r
  | None :: r => somes r
  end.

Definition destinations (df : list Edge) : Destinations :=
  let rows := filter complete df in
  let index := Labels.sort key_leb (Labels.unique key_eqb (keys_of origin_metro rows)) in
  let dests := Labels.sort String.leb
                 (Labels.unique String.eqb (somes (map destination_metro rows))) in
  mkDestinations index
    (map (fun d => (d, map (fun k => sum_Z (map num_migrants (filter (at_cell k d) rows)))
                           index))
         dests).

(** The sum of a view's totals over the rows of one year. *)
Definition year_is (y : Z) (c : option Z) : bool := Labels.opt_eqb Z.eqb c (Some y).

Definition inflow_total (y : Z) (v : list InflowRow) : Z :=
  sum_Z (map total_inflow (filter (fun r => year_is y (in_year r)) v)).

Definition outflow_total (y : Z) (v : list OutflowRow) : Z :=
  sum_Z (map total_outflow (filter (fun r => year_is y (out_year r)) v)).

End Migration.

(** ** The combined table *)

Module Joiner.

(** A row of the merged frame: the survey row with the stamped year and
    the cleaned name, and the columns of the inflow side, null where no
    inflow row matched. *)
Record CombinedRow := mkCombined {
  survey : Census.MetroRow;
  year : option Z;
  metro_name_clean : option string;
  destination_metro : option string;
  total_inflow : option Z;
  destination_metro_clean : option string
}.

(** [bls_data['year'].max()]: null on an empty column. *)
Definition max_year (ys : list Z) : option Z :=
  match ys with
  | [] => None
  | y :: r => Some (fold_left Z.max r y)
  end.

(** The metro frame with its two added columns. *)
Record Left := mkLeft {
  l_row : Census.MetroRow;
  l_year : option Z;
  l_clean : option string
}.

(** The inflow frame with its added column. *)
Record Right := mkRight {
  r_row : Migration.InflowRow;
  r_clean : option string
}.

Definition prepare_left (y : option Z) (metros : list Census.MetroRow) : list Left :=
  map (fun m => mkLeft m y (MetroName.str_replace_suffix (Census.metro_name m))) metros.

Definition prepare_right (inflow : list Migration.InflowRow) : list Right :=
  map (fun r => mkRight r (MetroName.str_replace_suffix (Migration.in_destination_metro r)))
      inflow.

(** Equality of the join keys; in a pandas merge a null key matches a
    null key. *)
Definition keys_match (l : Left) (r : Right) : bool :=
  Labels.opt_eqb String.eqb (l_clean l) (r_clean r)
  && Labels.opt_eqb Z.eqb (l_year l) (Migration.in_year (r_row r)).

Definition matched (l : Left) (r : Right) : CombinedRow :=
  mkCombined (l_row l) (l_year l) (l_clean l)
             (Migration.in_destination_metro (r_row r))
             (Some (Migration.total_inflow (r_row r)))
             (r_clean r).

Definition unmatched (l : Left) : CombinedRow :=
  mkCombined (l_row l) (l_year l) (l_clean l) None None None.

(** [pd.merge(left, right, left_on=..., right_on=..., how='left')]: the
    rows of the left frame in order, each with its matches in the order
    of the right frame, or once with nulls. *)
Fixpoint merge_left (ls : list Left) (rs : list Right) : list CombinedRow :=
  match ls with
  | [] => []
  | l :: rest =>
      match filter (keys_match l) rs with
      | [] => [unmatched l]
      | ms => map (matched l) ms
      end ++ merge_left rest rs
  end.

(** [merged_data['total_inflow'].fillna(0, inplace=True)]. *)
Definition fillna_total_inflow (df : list CombinedRow) : list CombinedRow :=
  map (fun c => mkCombined (survey c) (year c) (metro_name_clean c)
                           (destination_metro c)
                           (match total_inflow c with Some v => Some v | None => Some 0 end)
                           (destination_metro_clean c))
      df.

Definition combine (bls : Bls.Wide) (metros : list Census.MetroRow)
  (inflow : list Migration.InflowRow) : list CombinedRow :=
  fillna_total_inflow
    (merge_left (prepare_left (max_year (Bls.year_col bls)) metros)
                (prepare_right inflow)).

End Joiner.

(** ** The stores and the stages of [process_data.py] *)

Module Store.

(** [data/raw/]: a file is absent or holds a table. *)
Record Raw := mkRaw {
  bls_consumer_expenditure : option (list Bls.SeriesRecord);
  census_states_acs : option (list Census.RawRow);
  census_metros_acs : option (list Census.RawRow);
  hud_fair_market_rent : option Hud.Frame;
  synthetic_migration_data : option (list Migration.Edge)
}.

(** [data/processed/]. *)
Record Processed := mkProcessed {
  processed_bls_expenditure : option Bls.Wide;
  processed_states_acs : option (list Census.SurveyRow);
  processed_metros_acs : option (list Census.MetroRow);
  processed_hud_rent : option Hud.Frame;
  processed_migration_inflow : option (list Migration.InflowRow);
  processed_migration_outflow : option (list Migration.OutflowRow);
  processed_migration_destinations : option Migration.Destinations;
  combined_analysis_data : option (list Joiner.CombinedRow)
}.

Definition empty : Processed :=
  mkProcessed None None None None None None None None.

Definition write_bls (w : Bls.Wide) (p : Processed) : Processed :=
  mkProcessed (Some w) (processed_states_acs p) (processed_metros_acs p)
    (processed_hud_rent p) (processed_migration_inflow p)
    (processed_migration_outflow p) (processed_migration_destinations p)
    (combined_analysis_data p).

Definition write_states (t : list Census.SurveyRow) (p : Processed) : Processed :=
  mkProcessed (processed_bls_expenditure p) (Some t) (processed_metros_acs p)
    (processed_hud_rent p) (processed_migration_inflow p)
    (processed_migration_outflow p) (processed_migration_destinations p)
    (combined_analysis_data p).

Definition write_metros (t : list Census.MetroRow) (p : Processed) : Processed :=
  mkProcessed (processed_bls_expenditure p) (processed_states_acs p) (Some t)
    (processed_hud_rent p) (processed_migration_inflow p)
    (processed_migration_outflow p) (processed_migration_destinations p)
    (combined_analysis_data p).

Definition write_hud (t : Hud.Frame) (p : Processed) : Processed :=
  mkProcessed (processed_bls_expenditure p) (processed_states_acs p)
    (processed_metros_acs p) (Some t) (processed_migration_inflow p)
    (processed_migration_outflow p) (processed_migration_destinations p)
    (combined_analysis_data p).

Definition write_migration (i : list Migration.InflowRow)
  (o : list Migration.OutflowRow) (d : Migration.Destinations) (p : Processed)
  : Processed :=
  mkProcessed (processed_bls_expenditure p) (processed_states_acs p)
    (processed_metros_acs p) (processed_hud_rent p) (Some i) (Some o) (Some d)
    (combined_analysis_data p).

Definition write_combined (t : list Joiner.CombinedRow) (p : Processed) : Processed :=
  mkProcessed (processed_bls_expenditure p) (processed_states_acs p)
    (processed_metros_acs p) (processed_hud_rent p) (processed_migration_inflow p)
    (processed_migration_outflow p) (processed_migration_destinations p) (Some t).

End Store.

Module Process.

Import Store.
Local Open Scope string_scope.

Inductive level := INFO | WARNING | ERROR.

Definition log : Type := list (level * string).

(** What a stage gives back: its return value, the processed store it
    leaves, and what it logged. *)
Record outcome (A : Type) := mkOutcome {
  returned : A;
  store : Processed;
  logged : log
}.
Arguments mkOutcome {A} _ _ _.
Arguments returned {A} _.
Arguments store {A} _.
Arguments logged {A} _.

Definition raw_dir : string := "data/raw/".
Definition processed_dir : string := "data/processed/".

(** [process_bls_expenditure_data]. *)
Definition process_bls_expenditure_data (raw : Raw) (p : Processed)
  : outcome (option Bls.Wide) :=
  let start := (INFO, "Processing BLS Consumer Expenditure data") in
  match bls_consumer_expenditure raw with
  | None =>
      mkOutcome None p
        [start; (ERROR, "File not found: " ++ raw_dir ++ "bls_consumer_expenditure.csv")]
  | Some df =>
      match Bls.pivot df with
      | None =>
          mkOutcome None p
            [start;
             (ERROR, "Error processing BLS data: " ++
                     (if Labels.has_dup Bls.key_eqb (map Bls.key df)
                      then "Index contains duplicate entries, cannot reshape"
                      else "cannot insert year, already exists"))]
      | Some pivot_df =>
          let out := Bls.add_pct_changes pivot_df in
          mkOutcome (Some out) (write_bls out p)
            [start;
             (INFO, "Processed BLS data saved to " ++ processed_dir
                    ++ "processed_bls_expenditure.csv")]
      end
  end.

Section Census.
Variable str_to_float : string -> option F64.t.

(** [process_census_data]: the two files are handled one after the
    other, each only if it exists. *)
Definition process_census_data (raw : Raw) (p : Processed)
  : outcome (option (list Census.SurveyRow) * option (list Census.MetroRow)) :=
  let start := (INFO, "Processing Census ACS data") in
  let '(df_states, p1, log1) :=
    match census_states_acs raw with
    | Some df =>
        let t := Census.process_states str_to_float df in
        (Some t, write_states t p,
         [(INFO, "Processed state data saved to " ++ processed_dir
                 ++ "processed_states_acs.csv")])
    | None =>
        (None, p,
         [(WARNING, "State data file not found: " ++ raw_dir ++ "census_states_acs.csv")])
    end in
  let '(df_metros, p2, log2) :=
    match census_metros_acs raw with
    | Some df =>
        let t := Census.process_metros str_to_float df in
        (Some t, write_metros t p1,
         [(INFO, "Processed metro data saved to " ++ processed_dir
                 ++ "processed_metros_acs.csv")])
    | None =>
        (None, p1,
         [(WARNING, "Metro data file not found: " ++ raw_dir ++ "census_metros_acs.csv")])
    end in
  mkOutcome (df_states, df_metros) p2 (start :: log1 ++ log2).
End Census.

Section Hud.
Variable mean_axis1 : Hud.Frame -> option (list F64.t).

(** [process_hud_rent_data]: the inner [try] selects and averages; its
    handler saves and returns the frame as it was read. *)
Definition process_hud_rent_data (raw : Raw) (p : Processed)
  : outcome (option Hud.Frame) :=
  let start := (INFO, "Processing HUD Fair Market Rent data") in
  match hud_fair_market_rent raw with
  | Some df =>
      match Hud.select_and_average mean_axis1 df with
      | Some processed_df =>
          mkOutcome (Some processed_df) (write_hud processed_df p)
            [start;
             (INFO, "Processed HUD rent data saved to " ++ processed_dir
                    ++ "processed_hud_rent.csv")]
      | None =>
          mkOutcome (Some df) (write_hud df p)
            [start;
             (ERROR, "Error processing HUD columns");
             (INFO, "Saved original HUD data to " ++ processed_dir
                    ++ "processed_hud_rent.csv")]
      end
  | None =>
      mkOutcome None p
        [start;
         (WARNING, "HUD rent data file not found: " ++ raw_dir
                   ++ "hud_fair_market_rent.csv")]
  end.
End Hud.

(** [process_migration_data]. *)
Definition process_migration_data (raw : Raw) (p : Processed)
  : outcome (option (list Migration.InflowRow * list Migration.OutflowRow
                     * Migration.Destinations)) :=
  let start := (INFO, "Processing migration data") in
  match synthetic_migration_data raw with
  | Some df =>
      let inflow := Migration.inflow_by_dest df in
      let outflow := Migration.outflow_by_origin df in
      let dest := Migration.destinations df in
      mkOutcome (Some (inflow, outflow, dest)) (write_migration inflow outflow dest p)
        [start;
         (INFO, "Processed migration data saved to "
                ++ processed_dir ++ "processed_migration_inflow.csv, "
                ++ processed_dir ++ "processed_migration_outflow.csv, and "
                ++ processed_dir ++ "processed_migration_destinations.csv")]
  | None =>
      mkOutcome None p
        [start;
         (WARNING, "Migration data file not found: " ++ raw_dir
                   ++ "synthetic_migration_data.csv")]
  end.

(** [combine_data_for_analysis]: the three files are looked up first; the
    one message covers every way one of them can be absent. *)
Definition combine_data_for_analysis (p : Processed)
  : outcome (option (list Joiner.CombinedRow)) :=
  let start := (INFO, "Combining data for analysis") in
  match processed_bls_expenditure p, processed_metros_acs p,
        processed_migration_inflow p with
  | Some bls_data, Some metros_data, Some inflow_data =>
      let merged_data := Joiner.combine bls_data metros_data inflow_data in
      mkOutcome (Some merged_data) (write_combined merged_data p)
        [start;
         (INFO, "Combined data for analysis saved to " ++ processed_dir
                ++ "combined_analysis_data.csv")]
  | _, _, _ =>
      mkOutcome None p
        [start; (ERROR, "Some required processed data files are missing")]
  end.

(** The files the joiner requires and a store lacks. *)
Definition missing_inputs (p : Processed) : list string :=
  match processed_bls_expenditure p with
  | Some _ => []
  | None => ["processed_bls_expenditure.csv"]
  end
  ++ match processed_metros_acs p with
     | Some _ => []
     | None => ["processed_metros_acs.csv"]
     end
  ++ match processed_migration_inflow p with
     | Some _ => []
     | None => ["processed_migration_inflow.csv"]
     end.

End Process.

(** ** The synthetic migration generator of [acquire_data.py] *)

Module Acquire.

Local Open Scope string_scope.

Definition outflow_metros : list string :=
  [ "New York-Newark-Jersey City, NY-NJ-PA";
    "Los Angeles-Long Beach-Anaheim, CA";
    "Chicago-Naperville-Elgin, IL-IN-WI";
    "San Francisco-Oakland-Berkeley, CA";
    "Boston-Cambridge-Newton, MA-NH" ].

Definition inflow_metros : list string :=
  [ "Austin-Round Rock-Georgetown, TX";
    "Phoenix-Mesa-Chandler, AZ";
    "Nashville-Davidson--Murfreesboro--Franklin, TN";
    "Raleigh-Cary, NC";
    "Tampa-St. Petersburg-Clearwater, FL";
    "Dallas-Fort Worth-Arlington, TX";
    "Charlotte-Concord-Gastonia, NC-SC";
    "Jacksonville, FL";
    "Salt Lake City, UT";
    "Denver-Aurora-Lakewood, CO" ].

(** [range(2018, 2023)]. *)
Definition years : list Z := [2018; 2019; 2020; 2021; 2022]%Z.

(** A decimal literal [n/d] of the source: the double nearest to it, which
    the correctly rounded quotient of the two integers is. *)
Definition lit (n d : Z) : F64.t := F64.div (F64.of_Z n) (F64.of_Z d).

(** [1 + 0.15 * (year - 2018)]. *)
Definition outflow_factor (year : Z) : F64.t :=
  F64.add (F64.of_Z 1) (F64.mul (lit 15 100) (F64.of_Z (year - 2018))).

Definition base (origin : string) : Z :=
  if Py.contains "New York" origin then 120000
  else if Py.contains "Los Angeles" origin then 100000
  else if Py.contains "Chicago" origin then 80000
  else if Py.contains "San Francisco" origin then 70000
  else 50000.

Definition among (dest : string) (l : list string) : bool :=
  existsb (String.eqb dest) l.

Definition base_prop (dest : string) : F64.t :=
  if String.eqb dest "Austin-Round Rock-Georgetown, TX" then lit 18 100
  else if among dest ["Phoenix-Mesa-Chandler, AZ"; "Tampa-St. Petersburg-Clearwater, FL"]
  then lit 15 100
  else if among dest ["Raleigh-Cary, NC"; "Dallas-Fort Worth-Arlington, TX"]
  then lit 12 100
  else lit 8 100.

Section Generator.
(** numpy's global generator: its state, [np.random.seed] and one draw
    of [np.random.normal(loc, scale)], which returns the sample and
    leaves the next state. *)
Variable rng : Type.
Variable seed : Z -> rng.
Variable normal : F64.t -> F64.t -> rng -> F64.t * rng.

(** The loop over the destinations of one origin and year.  [None] is an
    exception of [int()]. *)
Fixpoint for_dests (year : Z) (origin : string) (outflow : Z)
  (dests : list string) (st : rng) : option (list Migration.Edge * rng) :=
  match dests with
  | [] => Some ([], st)
  | dest :: rest =>
      let '(noise, st1) := normal (F64.of_Z 1) (lit 2 10) st in
      let prop := F64.mul (base_prop dest) noise in
      match F64.to_int (F64.mul (F64.of_Z outflow) prop) with
      | None => None
      | Some k =>
          let migrants := Z.max k 0 in
          match for_dests year origin outflow rest st1 with
          | None => None
          | Some (data, st2) =>
              Some (Migration.mkEdge (Some year) (Some origin) (Some dest) migrants
                      :: data, st2)
          end
      end
  end.

(** The loop over the origins of one year. *)
Fixpoint for_origins (year : Z) (origins : list string) (st : rng)
  : option (list Migration.Edge * rng) :=
  match origins with
  | [] => Some ([], st)
  | origin :: rest =>
      let '(noise, st1) := normal (F64.of_Z 1) (lit 1 10) st in
      match F64.to_int
              (F64.mul (F64.mul (F64.of_Z (base origin)) (outflow_factor year)) noise) with
      | None => None
      | Some outflow =>
          match for_dests year origin outflow inflow_metros st1 with
          | None => None
          | Some (data, st2) =>
              match for_origins year rest st2 with
              | None => None
              | Some (more, st3) => Some ((data ++ more)%list, st3)
              end
          end
      end
  end.

Fixpoint for_years (ys : list Z) (st : rng) : option (list Migration.Edge * rng) :=
  match ys with
  | [] => Some ([], st)
  | year :: rest =>
      match for_origins year outflow_metros st with
      | None => None
      | Some (data, st1) =>
          match for_years rest st1 with
          | None => None
          | Some (more, st2) => Some ((data ++ more)%list, st2)
          end
      end
  end.

(** [get_migration_data]: from the generator's state at the call and the
    raw store, the frame returned (none when an exception leaves the
    function), the raw store and the generator's state afterwards. *)
Definition get_migration_data (g : rng) (raw : Store.Raw)
  : option (list Migration.Edge) * Store.Raw * rng :=
  let st := seed 42 in
  match for_years years st with
  | None => (None, raw, st)
  | Some (df, st') =>
      (Some df,
       Store.mkRaw (Store.bls_consumer_expenditure raw) (Store.census_states_acs raw)
         (Store.census_metros_acs raw) (Store.hud_fair_market_rent raw) (Some df),
       st')
  end.
End Generator.

(** A generator whose every draw is its mean, to run the model on. *)
Definition mean_normal (loc scale : F64.t) (st : unit) : F64.t * unit := (loc, st).

(** A generator whose every draw is six deviations below its mean. *)
Definition low_normal (loc scale : F64.t) (st : unit) : F64.t * unit :=
  (F64.sub loc (F64.mul (F64.of_Z 6) scale), st).

End Acquire.

(** ** The vocabulary of the specification's properties *)

Module Spec.


(** A stage's log names a file: some message contains the file's name. *)
Definition log_names (l : Process.log) (file : string) : bool :=
  existsb (fun m => Py.contains file (snd m)) l.










(** A small processed store to run the joiner on: three metros, of which
    one matches two inflow rows (two raw names with one cleaned form), one
    matches one and one matches none. *)
Definition sample_metros : list Census.MetroRow :=
  Census.process_metros (fun _ => None)
    [Census.mkRaw (Some "Springfield, MA"%string) (Census.RawNum (F64.of_Z 60000))
       (Census.RawNum (F64.of_Z 700000)) (Census.RawNum (F64.of_Z 1500));
     Census.mkRaw (Some "Boise City, ID"%string) (Census.RawNum (F64.of_Z 70000))
       (Census.RawNum (F64.of_Z 750000)) (Census.RawText "N"%string);
     Census.mkRaw (Some "Austin-Round Rock-Georgetown, TX"%string)
       (Census.RawNum (F64.of_Z 80000)) (Census.RawNum (F64.of_Z 2300000))
       (Census.RawNum (F64.of_Z 1600))].

Definition sample_inflow : list Migration.InflowRow :=
  [Migration.mkInflow (Some "Austin-Round Rock-Georgetown, TX"%string) (Some 2020) 11;
   Migration.mkInflow (Some "Austin-Round Rock-Georgetown, TX"%string) (Some 2021) 12;
   Migration.mkInflow (Some "Springfield, IL"%string) (Some 2021) 5;
   Migration.mkInflow (Some "Springfield, MO"%string) (Some 2021) 8].

Definition sample_store : Store.Processed :=
  Store.mkProcessed (Some (Bls.mkWide [2020; 2021] [])) None (Some sample_metros)
    None (Some sample_inflow) None None None.

(** An edge whose count of migrants is zero or more. *)
Definition non_negative (e : Migration.Edge) : Prop := 0 <= Migration.num_migrants e.

End Spec.

(** ** [main] of [process_data.py] *)

Module Pipeline.

Import Process.
Local Open Scope string_scope.

Section Main.
Variable str_to_float : string -> option F64.t.
Variable mean_axis1 : Hud.Frame -> option (list F64.t).

(** [main]: the four normalizers, then the joiner, each on the processed
    store the one before it left; what a stage returns is not looked at. *)
Definition main (raw : Store.Raw) (p : Store.Processed) : outcome unit :=
  let bls := process_bls_expenditure_data raw p in
  let census := process_census_data str_to_float raw (store bls) in
  let hud := process_hud_rent_data mean_axis1 raw (store census) in
  let migration := process_migration_data raw (store hud) in
  let combined := combine_data_for_analysis (store migration) in
  mkOutcome tt (store combined)
    (List.concat
       [[(INFO, "Starting data processing")];
        logged bls; logged census; logged hud; logged migration; logged combined;
        [(INFO, "Data processing completed")]]).
End Main.

End Pipeline.

(** ** The expenditure fetcher of [acquire_data.py] *)

Module Fetch.

Local Open Scope string_scope.

(** The decoded answer of the provider: a status, a message, and the
    series, each with its observations; years and values are texts. *)
Record Item := mkItem {
  item_year : string;
  item_value : string
}.

Record Series := mkSeries {
  seriesID : string;
  data : list Item
}.

Record Response := mkResponse {
  status : string;
  message : string;
  series : list Series
}.

(** A row of the frame the fetcher builds. *)
Record Row := mkRow {
  category : string;
  year : string;
  value : F64.t
}.

(** The chain of comparisons on the series identifier. *)
Definition category_of (series_id : string) : string :=
  if String.eqb series_id "CXUT0100AA" then "Total Expenditures"
  else if String.eqb series_id "CXUT0200AA" then "Food"
  else if String.eqb series_id "CXUT0400AA" then "Housing"
  else if String.eqb series_id "CXUT0450AA" then "Shelter"
  else if String.eqb series_id "CXUT0500AA" then "Transportation"
  else if String.eqb series_id "CXUT0600AA" then "Healthcare"
  else series_id.

Section Fetcher.
(** Python's [float(text)]; [None] is its [ValueError]. *)
Variable py_float : string -> option F64.t.

(** The loop over the observations of one series; [None] is an exception. *)
Fixpoint for_items (cat : string) (items : list Item) : option (list Row) :=
  match items with
  | [] => Some []
  | item :: rest =>
      match py_float (item_value item) with
      | None => None
      | Some v =>
          match for_items cat rest with
          | None => None
          | Some rows => Some (mkRow cat (item_year item) v :: rows)
          end
      end
  end.

(** The loop over the series. *)
Fixpoint for_series (l : list Series) : option (list Row) :=
  match l with
  | [] => Some []
  | series_data :: rest =>
      match for_items (category_of (seriesID series_data)) (data series_data) with
      | None => None
      | Some rows =>
          match for_series rest with
          | None => None
          | Some more => Some (rows ++ more)%list
          end
      end
  end.

(** What the fetcher gives: the frame it returns, the frame it wrote as
    [bls_consumer_expenditure.csv] (none when it wrote nothing), and its
    log. *)
Record fetched := mkFetched {
  returned : option (list Row);
  written : option (list Row);
  logged : Process.log
}.

(** [get_bls_expenditure_data] from the answer to its request; [None] is
    a request that raised (no connection, an HTTP error status, a body
    that is not JSON). *)
Definition get_bls_expenditure_data (api_key : option string)
  (answer : option Response) : fetched :=
  let start :=
    (Process.INFO, "Fetching BLS Consumer Expenditure Survey data")
    :: match api_key with
       | Some (String _ _) => []
       | _ => [(Process.WARNING,
                "No BLS API key provided. Using public access (limited requests)")]
       end in
  match answer with
  | None => mkFetched None None (List.app start [(Process.ERROR, "Error fetching BLS data")])
  | Some result =>
      if String.eqb (status result) "REQUEST_SUCCEEDED" then
        match for_series (series result) with
        | None =>
            mkFetched None None
              (List.app start [(Process.ERROR, "Error fetching BLS data")])
        | Some df =>
            mkFetched (Some df) (Some df)
              (List.app start
                 [(Process.INFO,
                   "BLS data saved to " ++ Process.raw_dir
                   ++ "bls_consumer_expenditure.csv")])
        end
      else
        mkFetched None None
          (List.app start
             [(Process.ERROR, "BLS API request failed: " ++ message result)])
  end.
End Fetcher.

End Fetch.

(** ** The driver, [run_analysis.py] *)

Module Driver.

Local Open Scope string_scope.

(** [os.path.basename]: what follows the last [/]. *)
Fixpoint basename_from (acc : string) (s : string) : string :=
  match s with
  | EmptyString => acc
  | String c r => if Ascii.eqb c "/"%char then basename_from r r
                  else basename_from acc r
  end.

Definition basename (path : string) : string := basename_from path path.

(** What a finished sub-process leaves: its exit status and the lines of
    its two streams. *)
Record Completed := mkCompleted {
  returncode : Z;
  stdout : list string;
  stderr : list string
}.

Section Run.
(** The machine the scripts run on: its state, the run of a script
    ([subprocess.run]) and the text of the time elapsed between two
    states ([{duration:.1f}]) and of the time of day. *)
Variable world : Type.
Variable exec : string -> world -> Completed * world.
Variable elapsed : world -> world -> string.
Variable now : world -> string.
(** Python's [str] of an integer. *)
Variable show_int : Z -> string.

Definition tagged (lvl : Process.level) (script_path : string) (lines : list string)
  : Process.log :=
  map (fun line => (lvl, "[" ++ basename script_path ++ "] " ++ line)) lines.

(** [run_script]: [check=True] makes a non-zero exit status an exception,
    which the handler logs. *)
Definition run_script (script_path description : string) (w : world)
  : bool * world * Process.log :=
  let start := (Process.INFO, "Starting " ++ description ++ "...") in
  let '(result, w') := exec script_path w in
  if Z.eqb (returncode result) 0 then
    (true, w',
     List.concat
       [[start];
        tagged Process.INFO script_path (stdout result);
        [(Process.INFO,
          "Completed " ++ description ++ " in " ++ elapsed w w' ++ " seconds")]])
  else
    (false, w',
     List.concat
       [[start;
         (Process.ERROR, "Error running " ++ description);
         (Process.ERROR, "Return code: " ++ show_int (returncode result))];
        tagged Process.INFO script_path (stdout result);
        tagged Process.ERROR script_path (stderr result)]).

Definition data_acquisition_script : string := "src/data/acquire_data.py".
Definition data_processing_script : string := "src/data/process_data.py".
Definition visualization_script : string := "src/visualization/visualize_data.py".
Definition modeling_script : string := "src/models/predict_rent_changes.py".

(** [main]: the four steps, each only if the one before succeeded. *)
Definition main (w : world) : bool * world * Process.log :=
  let head :=
    [(Process.INFO, "Starting income vs. expenses analysis pipeline");
     (Process.INFO, "Current time: " ++ now w)] in
  let '(ok1, w1, l1) := run_script data_acquisition_script "data acquisition" w in
  if negb ok1 then
    (false, w1,
     List.concat
       [head; l1; [(Process.ERROR, "Data acquisition failed. Pipeline stopped.")]])
  else
    let '(ok2, w2, l2) := run_script data_processing_script "data processing" w1 in
    if negb ok2 then
      (false, w2,
       List.concat
         [head; l1; l2;
          [(Process.ERROR, "Data processing failed. Pipeline stopped.")]])
    else
      let '(ok3, w3, l3) := run_script visualization_script "data visualization" w2 in
      if negb ok3 then
        (false, w3,
         List.concat
           [head; l1; l2; l3;
            [(Process.ERROR, "Data visualization failed. Pipeline stopped.")]])
      else
        let '(ok4, w4, l4) :=
          run_script modeling_script "modeling and prediction" w3 in
        if negb ok4 then
          (false, w4,
           List.concat
             [head; l1; l2; l3; l4;
              [(Process.ERROR, "Modeling and prediction failed. Pipeline stopped.")]])
        else
          (true, w4,
           List.concat
             [head; l1; l2; l3; l4;
              [(Process.INFO,
                "Complete pipeline executed successfully in " ++ elapsed w w4
                ++ " seconds");
               (Process.INFO, "Results are available in the 'results' directory")]]).

(** [sys.exit(0 if success else 1)]. *)
Definition exit_status (w : world) : Z :=
  if fst (fst (main w)) then 0 else 1.
End Run.

End Driver.

(** ** More vocabulary, for the properties beyond the specification's *)

Module Props.




(** A cell [to_numeric] turns into a null: empty, or a text the
    conversion refuses. *)
Definition coerced_to_null (str_to_float : string -> option F64.t)
  (c : Census.raw_cell) : Prop :=
  c = Census.RawNull \/ exists s, c = Census.RawText s /\ str_to_float s = None.

(** A text that is whole a state code: pairs of capitals joined by
    hyphens, as in [TX] or [NY-NJ-PA]. *)
Fixpoint state_code (g : string) : bool :=
  match g with
  | String a (String b r) =>
      MetroName.upper a && MetroName.upper b
      && match r with
         | EmptyString => true
         | String d r' => Ascii.eqb d "-"%char && state_code r'
         end
  | _ => false
  end.

(** The columns of a frame that bear one of the given names, in the
    order of the names. *)
Definition pick (names : list string) (df : Hud.Frame) : Hud.Frame :=
  flat_map (fun c => match Hud.get c df with
                     | Some col => [(c, col)]
                     | None => []
                     end) names.

(** The allow-listed columns of a rent frame, and its rent columns. *)
Definition kept (df : Hud.Frame) : Hud.Frame := pick Hud.cols_to_keep df.

Definition rents (df : Hud.Frame) : Hud.Frame :=
  pick (filter Hud.startswith_fmr Hud.cols_to_keep) df.




(** The year, origin and destination of an edge. *)
Definition edge_key (e : Migration.Edge) : option Z * option string * option string :=
  (Migration.year e, Migration.origin_metro e, Migration.destination_metro e).

Definition edge_key_eqb (p q : option Z * option string * option string) : bool :=
  Labels.opt_eqb Z.eqb (fst (fst p)) (fst (fst q))
  && Labels.opt_eqb String.eqb (snd (fst p)) (snd (fst q))
  && Labels.opt_eqb String.eqb (snd p) (snd q).

(** The keys of the generator's loops over the given years, in the order
    of the loops. *)
Definition all_keys (ys : list Z) : list (option Z * option string * option string) :=
  flat_map (fun y =>
              flat_map (fun o => map (fun d => (Some y, Some o, Some d))
                                     Acquire.inflow_metros)
                       Acquire.outflow_metros)
           ys.





(** The rows of an answer whose values all convert, in the order of the
    answer. *)
Definition rows_of (py_float : string -> option F64.t) (result : Fetch.Response)
  : list Fetch.Row :=
  flat_map (fun sd =>
              map (fun item =>
                     Fetch.mkRow (Fetch.category_of (Fetch.seriesID sd))
                       (Fetch.item_year item)
                       (match py_float (Fetch.item_value item) with
                        | Some v => v
                        | None => F64.nan
                        end))
                  (Fetch.data sd))
           (Fetch.series result).

(** Every value of the answer converts. *)
Definition all_convert (py_float : string -> option F64.t) (result : Fetch.Response)
  : Prop :=
  forall sd item, In sd (Fetch.series result) -> In item (Fetch.data sd) ->
                  py_float (Fetch.item_value item) <> None.

(** The driver's log shows the start of the step described. *)
Definition started (description : string) (l : Process.log) : Prop :=
  In (Process.INFO, ("Starting " ++ description ++ "...")%string) l.

(** Ascending and distinct, for years and for column names. *)
Definition year_before (a b : Z) : Prop := a < b.

Definition name_before (a b : string) : Prop := String.leb a b = true /\ a <> b.

(** What [$] allows after a match: nothing, or one final newline. *)
Definition line_end (rest : string) : Prop :=
  rest = EmptyString \/ rest = String "010"%char EmptyString.

End Props.

(* ================================================================== *)
(** * Properties *)

(** ** float64 and metro names: the examples of the specification *)

Example f64_ten : F64.of_Z 10 = S754_finite false 5629499534213120 (-49).
Proof. vm_compute. reflexivity. Qed.

Example strip_austin :
  MetroName.strip_suffix "Austin-Round Rock-Georgetown, TX"
  = "Austin-Round Rock-Georgetown"%string.
Proof. reflexivity. Qed.

Example strip_new_york :
  MetroName.strip_suffix "New York-Newark-Jersey City, NY-NJ-PA"
  = "New York-Newark-Jersey City"%string.
Proof. reflexivity. Qed.

Example strip_no_suffix :
  MetroName.strip_suffix "Washington, D.C." = "Washington, D.C."%string.
Proof. reflexivity. Qed.

Example extract_charlotte :
  MetroName.str_extract_state (Some "Charlotte-Concord-Gastonia, NC-SC"%string)
  = Some "NC-SC"%string.
Proof. reflexivity. Qed.

Example ratio_example :
  Census.ratio (F64.of_Z 1500) (F64.of_Z 60000) = Acquire.lit 3 10.
Proof. vm_compute. reflexivity. Qed.

(** ** The survey normalizer *)

Lemma div_nan_r (x : F64.t) : F64.div x F64.nan = F64.nan.
Proof. destruct x; reflexivity. Qed.

Lemma div_nan_l (y : F64.t) : F64.div F64.nan y = F64.nan.
Proof. reflexivity. Qed.





(** The stage hands each raw survey file it finds to the row normalizer
    and writes the table it returns. *)
Lemma process_census_data_tables :
  forall (str_to_float : string -> option F64.t) (raw : Store.Raw)
         (p : Store.Processed),
    let o := Process.process_census_data str_to_float raw p in
    fst (Process.returned o)
    = option_map (Census.process_states str_to_float) (Store.census_states_acs raw)
    /\ snd (Process.returned o)
       = option_map (Census.process_metros str_to_float) (Store.census_metros_acs raw)
    /\ (forall df, Store.census_states_acs raw = Some df ->
        Store.processed_states_acs (Process.store o)
        = Some (Census.process_states str_to_float df))
    /\ (forall df, Store.census_metros_acs raw = Some df ->
        Store.processed_metros_acs (Process.store o)
        = Some (Census.process_metros str_to_float df)).
Proof.
  intros f raw p. unfold Process.process_census_data.
  destruct (Store.census_states_acs raw) as [s|];
    destruct (Store.census_metros_acs raw) as [m|]; cbn;
    repeat split; intros df E; inversion E; reflexivity.
Qed.

(** ** The joiner's inputs *)

(** C8, as the specification states it, fails on its last part: with only
    the expenditure file absent the join fails and writes nothing, but no
    logged message names the absent file, and the log is the one of a run
    where another file is the absent one. *)
Lemma combine_missing_file_not_named :
  let bls := Bls.mkWide [2020] [] in
  let p1 := Store.mkProcessed None (Some []) (Some []) None (Some []) None None None in
  let p2 := Store.mkProcessed (Some bls) (Some []) (Some []) None None None None None in
  Process.missing_inputs p1 = ["processed_bls_expenditure.csv"%string]
  /\ Process.missing_inputs p2 = ["processed_migration_inflow.csv"%string]
  /\ Process.returned (Process.combine_data_for_analysis p1) = None
  /\ Spec.log_names (Process.logged (Process.combine_data_for_analysis p1))
                    "processed_bls_expenditure.csv" = false
  /\ Process.logged (Process.combine_data_for_analysis p1)
     = Process.logged (Process.combine_data_for_analysis p2).
Proof. vm_compute. repeat split. Qed.

(** C8 (amended): when any of the three processed files is absent the
    join returns nothing and leaves the processed store as it was; what it
    logs is one error that says some required file is missing, the same
    whichever file it is. *)
Theorem combine_requires_all_inputs :
  forall p : Store.Processed,
    Process.missing_inputs p <> [] ->
    let o := Process.combine_data_for_analysis p in
    Process.returned o = None
    /\ Process.store o = p
    /\ Process.logged o
       = [(Process.INFO, "Combining data for analysis"%string);
          (Process.ERROR, "Some required processed data files are missing"%string)].
Proof.
  intros p H. unfold Process.combine_data_for_analysis, Process.missing_inputs in *.
  destruct (Store.processed_bls_expenditure p);
    destruct (Store.processed_metros_acs p);
    destruct (Store.processed_migration_inflow p);
    simpl in *; try (exfalso; apply H; reflexivity); repeat split.
Qed.

Lemma combine_requires_all_inputs_witness :
  Process.returned (Process.combine_data_for_analysis Store.empty) = None
  /\ Process.store (Process.combine_data_for_analysis Store.empty) = Store.empty.
Proof.
  assert (H : Process.missing_inputs Store.empty <> []) by (vm_compute; discriminate).
  destruct (combine_requires_all_inputs Store.empty H) as [A [B _]].
  split; [exact A | exact B].
Defined.

(** With the three files present the join runs, returns the combined
    table and writes it. *)
Lemma combine_runs_when_inputs_present :
  forall p bls metros inflow,
    Store.processed_bls_expenditure p = Some bls ->
    Store.processed_metros_acs p = Some metros ->
    Store.processed_migration_inflow p = Some inflow ->
    let o := Process.combine_data_for_analysis p in
    Process.returned o = Some (Joiner.combine bls metros inflow)
    /\ Store.combined_analysis_data (Process.store o)
       = Some (Joiner.combine bls metros inflow).
Proof.
  intros p bls metros inflow Hb Hm Hi.
  unfold Process.combine_data_for_analysis. rewrite Hb, Hm, Hi. split; reflexivity.
Qed.

(** ** The rent benchmark normalizer *)

(** C9: when the raw rent file is there the stage always returns a frame
    and writes that frame; and when the selection of the columns or the
    average fails, whatever [mean(axis=1)] does, the frame returned and
    written is the raw one, unchanged. *)
Theorem hud_falls_back_to_raw :
  forall (mean_axis1 : Hud.Frame -> option (list F64.t))
         (raw : Store.Raw) (p : Store.Processed) (df : Hud.Frame),
    Store.hud_fair_market_rent raw = Some df ->
    let o := Process.process_hud_rent_data mean_axis1 raw p in
    (exists out, Process.returned o = Some out
                 /\ Store.processed_hud_rent (Process.store o) = Some out)
    /\ (Hud.select_and_average mean_axis1 df = None ->
        Process.returned o = Some df
        /\ Store.processed_hud_rent (Process.store o) = Some df).
Proof.
  intros mean raw p df Hraw. unfold Process.process_hud_rent_data. rewrite Hraw.
  destruct (Hud.select_and_average mean df) as [out|]; simpl.
  - split; [exists out; split; reflexivity | discriminate].
  - split; [exists df; split; reflexivity | intros _; split; reflexivity].
Qed.

Lemma hud_falls_back_to_raw_witness :
  let df : Hud.Frame :=
    [("area_name"%string, Hud.TextCol [Some "Abilene, TX MSA"%string]);
     ("fmr_0"%string, Hud.TextCol [Some "n/a"%string]);
     ("fmr_1"%string, Hud.NumCol [F64.of_Z 700]);
     ("pop2017"%string, Hud.NumCol [F64.of_Z 170000])] in
  let raw := Store.mkRaw None None None (Some df) None in
  let o := Process.process_hud_rent_data Hud.strict_mean_axis1 raw Store.empty in
  Hud.select_and_average Hud.strict_mean_axis1 df = None
  /\ Process.returned o = Some df
  /\ Store.processed_hud_rent (Process.store o) = Some df.
Proof.
  intros df raw o.
  assert (E : Hud.select_and_average Hud.strict_mean_axis1 df = None)
    by (vm_compute; reflexivity).
  split; [exact E |].
  exact (proj2 (hud_falls_back_to_raw Hud.strict_mean_axis1 raw Store.empty df
                  eq_refl) E).
Defined.

(** On a frame whose rent columns are numeric the selection succeeds and
    the average is appended. *)
Example hud_selects_and_averages :
  Hud.select_and_average Hud.strict_mean_axis1
    [("fmr_1"%string, Hud.NumCol [F64.of_Z 700]);
     ("pop2017"%string, Hud.NumCol [F64.of_Z 170000]);
     ("fmr_0"%string, Hud.NumCol [F64.of_Z 600])]
  = Some [("fmr_0"%string, Hud.NumCol [F64.of_Z 600]);
          ("fmr_1"%string, Hud.NumCol [F64.of_Z 700]);
          ("avg_rent"%string, Hud.NumCol [F64.of_Z 650])].
Proof. vm_compute. reflexivity. Qed.

(** ** The migration generator *)

(** C6: the data the generator returns (and with it every count of
    migrants, row by row) and the state it leaves do not depend on the
    state numpy's generator was in when it was called, nor on the raw
    store: every run re-seeds with 42 and draws from there. *)
Theorem get_migration_data_deterministic :
  forall (rng : Type) (seed : Z -> rng)
         (normal : F64.t -> F64.t -> rng -> F64.t * rng)
         (g1 g2 : rng) (raw1 raw2 : Store.Raw),
    let run1 := Acquire.get_migration_data rng seed normal g1 raw1 in
    let run2 := Acquire.get_migration_data rng seed normal g2 raw2 in
    fst (fst run1) = fst (fst run2)
    /\ snd run1 = snd run2
    /\ (forall df, fst (fst run1) = Some df ->
        Store.synthetic_migration_data (snd (fst run1)) = Some df
        /\ Store.synthetic_migration_data (snd (fst run2)) = Some df).
Proof.
  intros rng seed normal g1 g2 raw1 raw2. unfold Acquire.get_migration_data.
  destruct (Acquire.for_years rng normal Acquire.years (seed 42)) as [[df st]|];
    simpl; (split; [reflexivity | split; [reflexivity |]]); intros d Hd.
  - inversion Hd; subst. split; reflexivity.
  - discriminate.
Qed.

Section GeneratorFacts.
Variable rng : Type.
Variable seed : Z -> rng.
Variable normal : F64.t -> F64.t -> rng -> F64.t * rng.

Lemma for_dests_non_negative year origin outflow dests :
  forall st data st',
    Acquire.for_dests rng normal year origin outflow dests st = Some (data, st') ->
    Forall Spec.non_negative data /\ List.length data = List.length dests.
Proof.
  induction dests as [|dest rest IH]; simpl; intros st data st' H.
  - inversion H; subst. split; [constructor | reflexivity].
  - destruct (normal _ _ st) as [noise st1].
    destruct (F64.to_int _) as [k|]; [|discriminate].
    destruct (Acquire.for_dests rng normal year origin outflow rest st1)
      as [[d s2]|] eqn:E; [|discriminate].
    inversion H; subst. destruct (IH _ _ _ E) as [A B]. split.
    + constructor; [unfold Spec.non_negative; simpl; lia | exact A].
    + simpl. now rewrite B.
Qed.

Lemma for_origins_non_negative year origins :
  forall st data st',
    Acquire.for_origins rng normal year origins st = Some (data, st') ->
    Forall Spec.non_negative data
    /\ List.length data
       = (List.length origins * List.length Acquire.inflow_metros)%nat.
Proof.
  induction origins as [|origin rest IH]; intros st data st' H.
  - inversion H; subst. split; [constructor | reflexivity].
  - cbn [Acquire.for_origins] in H.
    destruct (normal _ _ st) as [noise st1].
    destruct (F64.to_int _) as [outflow|]; [|discriminate].
    destruct (Acquire.for_dests rng normal year origin outflow
                Acquire.inflow_metros st1) as [[d s2]|] eqn:E; [|discriminate].
    destruct (Acquire.for_origins rng normal year rest s2) as [[m s3]|] eqn:E';
      [|discriminate].
    inversion H; subst.
    destruct (for_dests_non_negative _ _ _ _ _ _ _ E) as [A B].
    destruct (IH _ _ _ E') as [A' B']. split.
    + apply Forall_app; split; assumption.
    + rewrite length_app, B, B'. simpl. lia.
Qed.

Lemma for_years_non_negative ys :
  forall st data st',
    Acquire.for_years rng normal ys st = Some (data, st') ->
    Forall Spec.non_negative data
    /\ List.length data
       = (List.length ys * (List.length Acquire.outflow_metros
                            * List.length Acquire.inflow_metros))%nat.
Proof.
  induction ys as [|y rest IH]; intros st data st' H.
  - inversion H; subst. split; [constructor | reflexivity].
  - cbn [Acquire.for_years] in H.
    destruct (Acquire.for_origins rng normal y Acquire.outflow_metros st)
      as [[d s1]|] eqn:E; [|discriminate].
    destruct (Acquire.for_years rng normal rest s1) as [[m s2]|] eqn:E';
      [|discriminate].
    inversion H; subst.
    destruct (for_origins_non_negative _ _ _ _ _ E) as [A B].
    destruct (IH _ _ _ E') as [A' B']. split.
    + apply Forall_app; split; assumption.
    + rewrite length_app, B, B'. simpl List.length. lia.
Qed.

End GeneratorFacts.

(** C7: whatever the generator draws, every edge of the data it returns
    has a count of migrants that is zero or more; the data has one edge
    per year, origin and destination, 250 in all. *)
Theorem num_migrants_non_negative :
  forall (rng : Type) (seed : Z -> rng)
         (normal : F64.t -> F64.t -> rng -> F64.t * rng)
         (g : rng) (raw : Store.Raw) (df : list Migration.Edge),
    fst (fst (Acquire.get_migration_data rng seed normal g raw)) = Some df ->
    Forall (fun e => 0 <= Migration.num_migrants e) df
    /\ List.length df = 250%nat.
Proof.
  intros rng seed normal g raw df H. unfold Acquire.get_migration_data in H.
  destruct (Acquire.for_years rng normal Acquire.years (seed 42))
    as [[d s]|] eqn:E; simpl in H; [|discriminate].
  inversion H; subst.
  destruct (for_years_non_negative rng normal _ _ _ _ E) as [A B].
  split; [exact A | rewrite B; reflexivity].
Qed.

Lemma num_migrants_non_negative_witness :
  exists df,
    fst (fst (Acquire.get_migration_data unit (fun _ => tt) Acquire.mean_normal tt
                (Store.mkRaw None None None None None))) = Some df
    /\ Forall (fun e => 0 <= Migration.num_migrants e) df
    /\ List.length df = 250%nat.
Proof.
  eexists. split; [vm_compute; reflexivity |].
  apply (num_migrants_non_negative unit (fun _ => tt) Acquire.mean_normal tt
           (Store.mkRaw None None None None None)).
  vm_compute. reflexivity.
Defined.

(** With draws far below the mean the proportion is negative, [int()]
    gives a negative count, and the edge gets the zero of [max]. *)
Example low_draws_are_clamped :
  let prop := F64.mul (Acquire.base_prop "Raleigh-Cary, NC")
                (fst (Acquire.low_normal (F64.of_Z 1) (Acquire.lit 2 10) tt)) in
  F64.to_int (F64.mul (F64.of_Z 48000) prop) = Some (-1152)
  /\ option_map (fun df => nodup Z.eq_dec (map Migration.num_migrants df))
       (fst (fst (Acquire.get_migration_data unit (fun _ => tt) Acquire.low_normal tt
                    (Store.mkRaw None None None None None))))
     = Some [0].
Proof. vm_compute. split; reflexivity. Qed.

(** ** Labels: sorting and distinct labels *)

Section LabelFacts.
Context {A : Type} (eqb : A -> A -> bool) (leb : A -> A -> bool).
Hypothesis eqb_eq : forall x y, eqb x y = true <-> x = y.

Lemma insert_perm (x : A) (l : list A) :
  Permutation (Labels.insert leb x l) (x :: l).
Proof.
  induction l as [|y r IH]; simpl.
  - apply Permutation_refl.
  - destruct (leb x y).
    + apply Permutation_refl.
    + eapply Permutation_trans; [apply perm_skip, IH | apply perm_swap].
Qed.

Lemma sort_perm (l : list A) : Permutation (Labels.sort leb l) l.
Proof.
  induction l as [|x r IH]; simpl.
  - constructor.
  - eapply Permutation_trans; [apply insert_perm | apply perm_skip, IH].
Qed.

Lemma sort_In (x : A) (l : list A) : In x (Labels.sort leb l) <-> In x l.
Proof.
  split; apply Permutation_in;
    [apply sort_perm | apply Permutation_sym, sort_perm].
Qed.

Lemma eqb_refl' (x : A) : eqb x x = true.
Proof. now apply eqb_eq. Qed.

Lemma eqb_neq (x y : A) : eqb x y = false <-> x <> y.
Proof.
  split.
  - intros H E. apply eqb_eq in E. congruence.
  - intro H. destruct (eqb x y) eqn:E; [apply eqb_eq in E; contradiction | reflexivity].
Qed.

Lemma unique_In (x : A) (l : list A) : In x (Labels.unique eqb l) <-> In x l.
Proof.
  induction l as [|y r IH]; simpl; [tauto|].
  rewrite filter_In, IH. split.
  - intros [H | [H _]]; auto.
  - intros [H | H]; [auto|].
    destruct (eqb y x) eqn:E.
    + left. now apply eqb_eq.
    + right. split; [assumption | reflexivity].
Qed.

Lemma unique_NoDup (l : list A) : NoDup (Labels.unique eqb l).
Proof.
  induction l as [|y r IH]; simpl; constructor.
  - rewrite filter_In. intros [_ H]. now rewrite eqb_refl' in H.
  - now apply NoDup_filter.
Qed.

Lemma index_NoDup (l : list A) : NoDup (Labels.sort leb (Labels.unique eqb l)).
Proof.
  eapply Permutation_NoDup; [apply Permutation_sym, sort_perm | apply unique_NoDup].
Qed.

Lemma index_In (x : A) (l : list A) :
  In x (Labels.sort leb (Labels.unique eqb l)) <-> In x l.
Proof. now rewrite sort_In, unique_In. Qed.

Lemma existsb_eqb_In (x : A) (l : list A) : existsb (eqb x) l = true <-> In x l.
Proof.
  rewrite existsb_exists. split.
  - intros [y [H E]]. apply eqb_eq in E. now subst.
  - intro H. exists x. split; [assumption | apply eqb_refl'].
Qed.

Lemma has_dup_false (l : list A) : Labels.has_dup eqb l = false <-> NoDup l.
Proof.
  induction l as [|x r IH]; simpl.
  - split; [constructor | reflexivity].
  - rewrite orb_false_iff, IH. split.
    + intros [H N]. constructor; [|assumption].
      intro I. apply existsb_eqb_In in I. congruence.
    + intro N. inversion N; subst. split; [|assumption].
      destruct (existsb (eqb x) r) eqn:E; [|reflexivity].
      apply existsb_eqb_In in E. contradiction.
Qed.

Lemma has_dup_positions (l : list A) (i j : nat) (x : A) :
  i <> j -> nth_error l i = Some x -> nth_error l j = Some x ->
  Labels.has_dup eqb l = true.
Proof.
  intros Hij Hi Hj.
  destruct (Labels.has_dup eqb l) eqn:E; [reflexivity|].
  apply has_dup_false in E. exfalso. apply Hij.
  apply (proj1 (NoDup_nth_error l) E); [| congruence].
  apply nth_error_Some. congruence.
Qed.

End LabelFacts.

Lemma bls_key_eqb_eq (k k' : string * Z) : Bls.key_eqb k k' = true <-> k = k'.
Proof.
  destruct k as [c y], k' as [c' y']. unfold Bls.key_eqb, Labels.pair_eqb. simpl.
  rewrite andb_true_iff, String.eqb_eq, Z.eqb_eq. split.
  - intros [-> ->]. reflexivity.
  - intro H. inversion H. auto.
Qed.

(** ** The expenditure normalizer: the pivot *)

Lemma pivot_inv (rs : list Bls.SeriesRecord) (w : Bls.Wide) :
  Bls.pivot rs = Some w ->
  NoDup (map Bls.key rs)
  /\ ~ In "year"%string (map Bls.category rs)
  /\ w = Bls.mkWide
           (Labels.sort Z.leb (Labels.unique Z.eqb (map Bls.year rs)))
           (map (fun c => (c, map (fun y => Bls.cell rs c y)
                                  (Labels.sort Z.leb (Labels.unique Z.eqb (map Bls.year rs)))))
                (Labels.sort String.leb (Labels.unique String.eqb (map Bls.category rs)))).
Proof.
  unfold Bls.pivot. intro H.
  destruct (Labels.has_dup Bls.key_eqb (map Bls.key rs)) eqn:D; [discriminate|].
  destruct (existsb _ _) eqn:Y; [discriminate|].
  inversion H; subst. repeat split.
  - apply (has_dup_false Bls.key_eqb bls_key_eqb_eq). exact D.
  - intro I. apply (index_In String.eqb String.leb String.eqb_eq) in I.
    apply (existsb_eqb_In String.eqb String.eqb_eq) in I. congruence.
Qed.

Lemma pivot_succeeds (rs : list Bls.SeriesRecord) :
  NoDup (map Bls.key rs) -> ~ In "year"%string (map Bls.category rs) ->
  exists w, Bls.pivot rs = Some w.
Proof.
  intros N Y. unfold Bls.pivot.
  rewrite (proj2 (has_dup_false Bls.key_eqb bls_key_eqb_eq _) N).
  destruct (existsb _ _) eqn:E; [|eexists; reflexivity].
  exfalso. apply Y.
  apply (proj1 (existsb_eqb_In String.eqb String.eqb_eq _ _)) in E.
  exact (proj1 (index_In String.eqb String.leb String.eqb_eq _ _) E).
Qed.

Lemma pivot_duplicate (rs : list Bls.SeriesRecord) (i j : nat) (a b : Bls.SeriesRecord) :
  i <> j -> nth_error rs i = Some a -> nth_error rs j = Some b ->
  Bls.category a = Bls.category b -> Bls.year a = Bls.year b ->
  Labels.has_dup Bls.key_eqb (map Bls.key rs) = true.
Proof.
  intros Hij Hi Hj Hc Hy.
  apply (has_dup_positions Bls.key_eqb bls_key_eqb_eq _ i j (Bls.key a) Hij).
  - now rewrite nth_error_map, Hi.
  - rewrite nth_error_map, Hj. unfold Bls.key. now rewrite Hc, Hy.
Qed.

(** C10: when two Series Records of the raw expenditure file have the
    same category and year, the expenditure normalizer returns nothing,
    leaves the processed store as it was (it writes no file) and logs the
    error of the pivot. *)
Theorem bls_duplicate_record_no_output :
  forall (raw : Store.Raw) (p : Store.Processed) (df : list Bls.SeriesRecord)
         (i j : nat) (a b : Bls.SeriesRecord),
    Store.bls_consumer_expenditure raw = Some df ->
    i <> j -> nth_error df i = Some a -> nth_error df j = Some b ->
    Bls.category a = Bls.category b -> Bls.year a = Bls.year b ->
    let o := Process.process_bls_expenditure_data raw p in
    Process.returned o = None
    /\ Process.store o = p
    /\ In (Process.ERROR,
           "Error processing BLS data: Index contains duplicate entries, cannot reshape"%string)
          (Process.logged o).
Proof.
  intros raw p df i j a b Hraw Hij Hi Hj Hc Hy.
  pose proof (pivot_duplicate df i j a b Hij Hi Hj Hc Hy) as D.
  unfold Process.process_bls_expenditure_data. rewrite Hraw.
  unfold Bls.pivot. rewrite D. simpl. repeat split. right. left. reflexivity.
Qed.

Lemma bls_duplicate_record_no_output_witness :
  let df := [Bls.mkSeries "Food" 2020 (F64.of_Z 100);
             Bls.mkSeries "Housing" 2020 (F64.of_Z 300);
             Bls.mkSeries "Food" 2020 (F64.of_Z 110)] in
  let raw := Store.mkRaw (Some df) None None None None in
  let o := Process.process_bls_expenditure_data raw Store.empty in
  Process.returned o = None /\ Process.store o = Store.empty.
Proof.
  intros df raw o.
  assert (Hij : 0%nat <> 2%nat) by discriminate.
  destruct (bls_duplicate_record_no_output raw Store.empty df 0 2
              (Bls.mkSeries "Food" 2020 (F64.of_Z 100))
              (Bls.mkSeries "Food" 2020 (F64.of_Z 110))
              eq_refl Hij eq_refl eq_refl eq_refl eq_refl) as [A [B _]].
  split; [exact A | exact B].
Defined.

(** Without a repeated key (and without a category named [year]) the
    stage returns the wide table and writes it. *)
Lemma bls_runs_on_valid_records :
  forall (raw : Store.Raw) (p : Store.Processed) (df : list Bls.SeriesRecord)
         (w : Bls.Wide),
    Store.bls_consumer_expenditure raw = Some df ->
    Bls.pivot df = Some w ->
    let o := Process.process_bls_expenditure_data raw p in
    Process.returned o = Some (Bls.add_pct_changes w)
    /\ Store.processed_bls_expenditure (Process.store o) = Some (Bls.add_pct_changes w).
Proof.
  intros raw p df w Hraw Hp. unfold Process.process_bls_expenditure_data.
  rewrite Hraw, Hp. split; reflexivity.
Qed.

(** ** Pivot and melt *)

Lemma series_eta (r : Bls.SeriesRecord) :
  Bls.mkSeries (Bls.category r) (Bls.year r) (Bls.value r) = r.
Proof. destruct r; reflexivity. Qed.

Lemma cell_cases (rs : list Bls.SeriesRecord) (c : string) (y : Z) :
  (exists r, In r rs /\ Bls.key r = (c, y) /\ Bls.cell rs c y = Bls.value r)
  \/ ((forall r, In r rs -> Bls.key r <> (c, y)) /\ Bls.cell rs c y = F64.nan).
Proof.
  induction rs as [|r rest IH]; simpl.
  - right. split; [intros r [] | reflexivity].
  - destruct (Bls.key_eqb (Bls.key r) (c, y)) eqn:E.
    + left. exists r. apply bls_key_eqb_eq in E. auto.
    + destruct IH as [[r' [I [K V]]] | [N V]].
      * left. exists r'. auto.
      * right. split; [|assumption].
        intros r' [<- | I]; [|auto].
        intro K. apply bls_key_eqb_eq in K. congruence.
Qed.

Lemma cell_found (rs : list Bls.SeriesRecord) (r : Bls.SeriesRecord) :
  NoDup (map Bls.key rs) -> In r rs ->
  Bls.cell rs (Bls.category r) (Bls.year r) = Bls.value r.
Proof.
  induction rs as [|r0 rest IH]; simpl; intros N I; [contradiction|].
  inversion N as [|k ks Hk N']; subst.
  destruct I as [-> | I].
  - assert (E : Bls.key_eqb (Bls.key r) (Bls.category r, Bls.year r) = true)
      by now apply bls_key_eqb_eq.
    now rewrite E.
  - destruct (Bls.key_eqb (Bls.key r0) (Bls.category r, Bls.year r)) eqn:E.
    + apply bls_key_eqb_eq in E. exfalso. apply Hk.
      rewrite E. change (Bls.category r, Bls.year r) with (Bls.key r).
      now apply in_map.
    + now apply IH.
Qed.

Lemma combine_map_r {A B : Type} (f : A -> B) (l : list A) :
  combine l (map f l) = map (fun a => (a, f a)) l.
Proof. induction l as [|a r IH]; simpl; [reflexivity | now rewrite IH]. Qed.

Lemma melt_pivot_In (rs : list Bls.SeriesRecord) (w : Bls.Wide) (t : Bls.SeriesRecord) :
  Bls.pivot rs = Some w ->
  (In t (Bls.melt w) <->
   In (Bls.category t) (map Bls.category rs)
   /\ In (Bls.year t) (map Bls.year rs)
   /\ Bls.value t = Bls.cell rs (Bls.category t) (Bls.year t)).
Proof.
  intro H. destruct (pivot_inv rs w H) as [_ [_ ->]].
  unfold Bls.melt. cbn [Bls.value_cols Bls.year_col].
  rewrite in_flat_map. split.
  - intros [[c col] [Hc Ht]].
    apply in_map_iff in Hc. destruct Hc as [c' [E Hc]]. inversion E; subst c' col.
    cbn [fst snd] in Ht. rewrite combine_map_r, map_map in Ht.
    apply in_map_iff in Ht. destruct Ht as [y [<- Hy]]. cbn.
    apply (proj1 (index_In String.eqb String.leb String.eqb_eq _ _)) in Hc.
    apply (proj1 (index_In Z.eqb Z.leb Z.eqb_eq _ _)) in Hy.
    split; [exact Hc | split; [exact Hy | reflexivity]].
  - intros [Hc [Hy Hv]].
    apply (proj2 (index_In String.eqb String.leb String.eqb_eq _ _)) in Hc.
    apply (proj2 (index_In Z.eqb Z.leb Z.eqb_eq _ _)) in Hy.
    eexists. split; [apply in_map_iff; eexists; split; [reflexivity | exact Hc] |].
    cbn [fst snd]. rewrite combine_map_r, map_map. apply in_map_iff.
    exists (Bls.year t). split; [|exact Hy].
    cbn. rewrite <- Hv. apply series_eta.
Qed.

(** C4, as the specification states it, fails: two valid Series Records
    of different categories and years pivot to a table with two empty
    cells, and the melt of it has a triple that was never recorded. *)
Lemma melt_pivot_adds_null_triples :
  let rs := [Bls.mkSeries "Food" 2020 (F64.of_Z 100);
             Bls.mkSeries "Housing" 2021 (F64.of_Z 200)] in
  let extra := Bls.mkSeries "Food" 2021 F64.nan in
  exists w, Bls.pivot rs = Some w
            /\ In extra (Bls.melt w)
            /\ ~ In extra rs
            /\ List.length (Bls.melt w) = 4%nat.
Proof.
  eexists. split; [vm_compute; reflexivity |]. split; [|split].
  - vm_compute. right. left. reflexivity.
  - intros [H | [H | []]]; discriminate.
  - reflexivity.
Qed.

(** C4 (amended): for Series Records with one row per (category, year)
    and no category named [year], the pivot succeeds and the melt of it
    holds every original triple; any other triple it holds has a null
    value, at a category and a year of the records that no record pairs;
    so the melt is exactly the original set when every category has a
    record for every year. *)
Theorem melt_pivot_recovers :
  forall rs : list Bls.SeriesRecord,
    NoDup (map Bls.key rs) ->
    ~ In "year"%string (map Bls.category rs) ->
    exists w,
      Bls.pivot rs = Some w
      /\ (forall t, In t rs -> In t (Bls.melt w))
      /\ (forall t, In t (Bls.melt w) ->
          In t rs
          \/ (Bls.value t = F64.nan
              /\ In (Bls.category t) (map Bls.category rs)
              /\ In (Bls.year t) (map Bls.year rs)
              /\ forall r, In r rs -> Bls.key r <> Bls.key t))
      /\ ((forall c y, In c (map Bls.category rs) -> In y (map Bls.year rs) ->
           exists r, In r rs /\ Bls.key r = (c, y)) ->
          forall t, In t (Bls.melt w) <-> In t rs).
Proof.
  intros rs N Y. destruct (pivot_succeeds rs N Y) as [w H]. exists w.
  split; [exact H|].
  assert (A : forall t, In t rs -> In t (Bls.melt w)).
  { intros t I. apply (melt_pivot_In rs w t H). repeat split.
    - now apply in_map.
    - now apply in_map.
    - symmetry. now apply cell_found. }
  assert (B : forall t, In t (Bls.melt w) ->
              In t rs
              \/ (Bls.value t = F64.nan
                  /\ In (Bls.category t) (map Bls.category rs)
                  /\ In (Bls.year t) (map Bls.year rs)
                  /\ forall r, In r rs -> Bls.key r <> Bls.key t)).
  { intros t I. apply (melt_pivot_In rs w t H) in I. destruct I as [Hc [Hy Hv]].
    destruct (cell_cases rs (Bls.category t) (Bls.year t)) as [[r [I [K V]]] | [Nk V]].
    - left. rewrite V in Hv. unfold Bls.key in K. inversion K as [[Kc Ky]].
      rewrite <- (series_eta t), <- Kc, <- Ky, Hv, series_eta. exact I.
    - right. rewrite V in Hv. auto. }
  split; [exact A | split; [exact B |]].
  intros Full t. split; [|apply A].
  intro I. destruct (B t I) as [J | [_ [Hc [Hy Nk]]]]; [exact J|].
  destruct (Full _ _ Hc Hy) as [r [Ir K]]. exfalso. exact (Nk r Ir K).
Qed.

Lemma melt_pivot_recovers_witness :
  let rs := [Bls.mkSeries "Food" 2020 (F64.of_Z 100);
             Bls.mkSeries "Food" 2021 (F64.of_Z 110);
             Bls.mkSeries "Housing" 2020 (F64.of_Z 300);
             Bls.mkSeries "Housing" 2021 F64.nan] in
  exists w, Bls.pivot rs = Some w /\ forall t, In t (Bls.melt w) <-> In t rs.
Proof.
  intro rs.
  assert (N : NoDup (map Bls.key rs))
    by (apply (has_dup_false Bls.key_eqb bls_key_eqb_eq); reflexivity).
  assert (Y : ~ In "year"%string (map Bls.category rs))
    by (intros [E | [E | [E | [E | []]]]]; discriminate).
  destruct (melt_pivot_recovers rs N Y) as [w [H [_ [_ Full]]]].
  exists w. split; [exact H|]. apply Full.
  intros c y [<- | [<- | [<- | [<- | []]]]] [<- | [<- | [<- | [<- | []]]]];
    first
      [ solve [eexists; split; [left; reflexivity | reflexivity]]
      | solve [eexists; split; [right; left; reflexivity | reflexivity]]
      | solve [eexists; split; [right; right; left; reflexivity | reflexivity]]
      | solve [eexists; split; [right; right; right; left; reflexivity | reflexivity]] ].
Defined.

(** ** The expenditure normalizer: percent changes *)









Lemma sub_nan_l (y : F64.t) : F64.sub F64.nan y = F64.nan.
Proof. reflexivity. Qed.

Lemma mul_nan_l (y : F64.t) : F64.mul F64.nan y = F64.nan.
Proof. reflexivity. Qed.







(** The columns of the frame under the loop that adds the percent
    changes. *)

Lemma get_set_col (m n : string) (v : list F64.t) (cols : list (string * list F64.t)) :
  Bls.get_col n (Bls.set_col m v cols)
  = if String.eqb m n then Some v else Bls.get_col n cols.
Proof.
  induction cols as [|[k c] r IH]; simpl.
  - destruct (String.eqb m n); reflexivity.
  - destruct (String.eqb k m) eqn:Ekm; simpl.
    + apply String.eqb_eq in Ekm. subst k.
      destruct (String.eqb m n); reflexivity.
    + destruct (String.eqb k n) eqn:Ekn.
      * destruct (String.eqb m n) eqn:Emn; [|reflexivity].
        apply String.eqb_eq in Ekn, Emn. subst.
        rewrite String.eqb_refl in Ekm. discriminate.
      * apply IH.
Qed.

Lemma string_length_append (a b : string) :
  String.length (a ++ b) = (String.length a + String.length b)%nat.
Proof. induction a as [|x a IH]; simpl; [reflexivity | now rewrite IH]. Qed.

Lemma pct_name_inj (a b : string) : Bls.pct_name a = Bls.pct_name b -> a = b.
Proof.
  unfold Bls.pct_name. revert b.
  induction a as [|x a IH]; intros [|y b] H; simpl in H.
  - reflexivity.
  - exfalso. apply (f_equal String.length) in H. simpl in H.
    rewrite string_length_append in H. simpl in H. lia.
  - exfalso. apply (f_equal String.length) in H. simpl in H.
    rewrite string_length_append in H. simpl in H. lia.
  - inversion H. f_equal. now apply IH.
Qed.

Lemma add_pct_step_other (cols : list (string * list F64.t)) (a n : string) :
  (a <> "year"%string -> Bls.pct_name a <> n) ->
  Bls.get_col n (Bls.add_pct_step cols a) = Bls.get_col n cols.
Proof.
  intro H. unfold Bls.add_pct_step.
  destruct (String.eqb a "year") eqn:E; [reflexivity|].
  destruct (Bls.get_col a cols); [|reflexivity].
  rewrite get_set_col.
  destruct (String.eqb (Bls.pct_name a) n) eqn:E'; [|reflexivity].
  apply String.eqb_eq in E'. apply String.eqb_neq in E. exfalso. exact (H E E').
Qed.

Lemma add_pct_fold_other (l : list string) :
  forall cols n,
    (forall a, In a l -> a <> "year"%string -> Bls.pct_name a <> n) ->
    Bls.get_col n (fold_left Bls.add_pct_step l cols) = Bls.get_col n cols.
Proof.
  induction l as [|a r IH]; simpl; intros cols n H; [reflexivity|].
  rewrite IH by (intros b Hb; apply H; now right).
  apply add_pct_step_other. apply H. now left.
Qed.

Lemma add_pct_fold_pct (l : list string) :
  forall cols c xs,
    NoDup l -> In c l -> c <> "year"%string ->
    (forall a, In a l -> a <> "year"%string -> Bls.pct_name a <> c) ->
    Bls.get_col c cols = Some xs ->
    Bls.get_col (Bls.pct_name c) (fold_left Bls.add_pct_step l cols)
    = Some (Bls.times_100 (Bls.pct_change xs)).
Proof.
  induction l as [|a r IH]; simpl; intros cols c xs N I Hy Hn G; [contradiction|].
  inversion N as [|? ? Ha N']; subst.
  destruct (string_dec a c) as [-> | Hac].
  - rewrite add_pct_fold_other.
    + unfold Bls.add_pct_step. apply String.eqb_neq in Hy. rewrite Hy, G.
      rewrite get_set_col. now rewrite String.eqb_refl.
    + intros b Hb _ E. apply pct_name_inj in E. subst. contradiction.
  - destruct I as [-> | I]; [contradiction|].
    apply IH; try assumption.
    + intros b Hb. apply Hn. now right.
    + rewrite add_pct_step_other; [exact G|]. apply Hn. now left.
Qed.

Lemma get_col_map (f : string -> list F64.t) (cats : list string) (c : string) :
  In c cats -> Bls.get_col c (map (fun c => (c, f c)) cats) = Some (f c).
Proof.
  induction cats as [|a r IH]; simpl; intro H; [contradiction|].
  destruct (String.eqb a c) eqn:E.
  - apply String.eqb_eq in E. now subst.
  - destruct H as [-> | H]; [rewrite String.eqb_refl in E; discriminate | now apply IH].
Qed.




(** The example of the specification: Food at 100 in 2020 and 110 in 2021.
    The percent change of 2021 is the double just above ten that
    [(110 / 100 - 1) * 100] rounds to, 10.000000000000009, where
    [(110 - 100) / 100 * 100] would be ten. *)
Example bls_food_example :
  let rs := [Bls.mkSeries "Food" 2020 (F64.of_Z 100);
             Bls.mkSeries "Food" 2021 (F64.of_Z 110)] in
  option_map Bls.add_pct_changes (Bls.pivot rs)
  = Some (Bls.mkWide [2020; 2021]
            [("Food"%string, [F64.of_Z 100; F64.of_Z 110]);
             ("Food_pct_change"%string,
              [F64.nan; S754_finite false 5629499534213125 (-49)])])
  /\ F64.mul (F64.div (F64.sub (F64.of_Z 110) (F64.of_Z 100)) (F64.of_Z 100))
             (F64.of_Z 100)
     = F64.of_Z 10
  /\ F64.of_Z 10 = S754_finite false 5629499534213120 (-49).
Proof. vm_compute. repeat split. Qed.

(** ** The migration normalizer *)






Section GroupFacts.
Variable name : Migration.Edge -> option string.





End GroupFacts.






(** The views on the edges of the witness. *)
Example migration_views_example :
  let df := [Migration.mkEdge (Some 2020) (Some "Chicago, IL") (Some "Austin, TX") 40;
             Migration.mkEdge (Some 2020) (Some "Boston, MA") (Some "Austin, TX") 25;
             Migration.mkEdge (Some 2021) (Some "Chicago, IL") (Some "Denver, CO") 7;
             Migration.mkEdge (Some 2020) (Some "Chicago, IL") (Some "Denver, CO") 10]%string in
  Migration.inflow_by_dest df
  = [Migration.mkInflow (Some "Austin, TX") (Some 2020) 65;
     Migration.mkInflow (Some "Denver, CO") (Some 2020) 10;
     Migration.mkInflow (Some "Denver, CO") (Some 2021) 7]%string
  /\ Migration.outflow_by_origin df
     = [Migration.mkOutflow (Some "Boston, MA") (Some 2020) 25;
        Migration.mkOutflow (Some "Chicago, IL") (Some 2020) 50;
        Migration.mkOutflow (Some "Chicago, IL") (Some 2021) 7]%string
  /\ Migration.destinations df
     = Migration.mkDestinations
         [("Boston, MA", 2020); ("Chicago, IL", 2020); ("Chicago, IL", 2021)]%string
         [("Austin, TX", [25; 40; 0]); ("Denver, CO", [0; 10; 7])]%string.
Proof. vm_compute. repeat split. Qed.

(** A row whose destination cell is empty is in no inflow group but in an
    outflow group: on such a frame, which is not a set of Migration Edges,
    the two totals differ. *)
Example migration_null_destination :
  let df := [Migration.mkEdge (Some 2020) (Some "Chicago, IL"%string) None 10] in
  Migration.inflow_total 2020 (Migration.inflow_by_dest df) = 0
  /\ Migration.outflow_total 2020 (Migration.outflow_by_origin df) = 10.
Proof. vm_compute. split; reflexivity. Qed.

(** ** The joiner *)







(** The combined table of the sample store, by name and total inflow. *)
Example combine_sample :
  option_map
    (map (fun c => (Census.metro_name (Joiner.survey c), Joiner.year c,
                    Joiner.destination_metro c, Joiner.total_inflow c)))
    (Process.returned (Process.combine_data_for_analysis Spec.sample_store))
  = Some [(Some "Springfield, MA", Some 2021, Some "Springfield, IL", Some 5);
          (Some "Springfield, MA", Some 2021, Some "Springfield, MO", Some 8);
          (Some "Boise City, ID", Some 2021, None, Some 0);
          (Some "Austin-Round Rock-Georgetown, TX", Some 2021,
           Some "Austin-Round Rock-Georgetown, TX", Some 12)]%string.
Proof. vm_compute. reflexivity. Qed.

(* ================================================================== *)
(** * Further properties of the pipeline *)

(** ** The survey normalizer: nulls *)

Lemma mul_nan_12 : F64.mul F64.nan (F64.of_Z 12) = F64.nan.
Proof. reflexivity. Qed.

(** X1: a rent or income cell that is empty, or a text that cannot be
    converted, becomes a null measure and makes the ratio of its row
    null; a numeric cell is kept as it is. *)
Theorem unconvertible_cell_gives_null_ratio :
  forall (str_to_float : string -> option F64.t) (r : Census.RawRow),
    let out := Census.process_row str_to_float r in
    (Props.coerced_to_null str_to_float (Census.raw_rent r) ->
     Census.median_gross_rent out = F64.nan
     /\ Census.rent_to_income_ratio out = F64.nan)
    /\ (Props.coerced_to_null str_to_float (Census.raw_income r) ->
        Census.median_household_income out = F64.nan
        /\ Census.rent_to_income_ratio out = F64.nan)
    /\ (forall x, Census.raw_income r = Census.RawNum x ->
                  Census.median_household_income out = x)
    /\ (forall x, Census.raw_rent r = Census.RawNum x ->
                  Census.median_gross_rent out = x)
    /\ Census.name out = Census.raw_name r.
Proof.
  intros f r out. unfold out, Census.process_row, Census.ratio.
  cbn [Census.median_gross_rent Census.median_household_income
       Census.rent_to_income_ratio Census.name].
  assert (N : forall c, Props.coerced_to_null f c ->
                        Census.to_numeric_coerce f c = F64.nan).
  { intros c [-> | [s [-> E]]]; simpl; [reflexivity | now rewrite E]. }
  split; [| split; [| split; [| split; [| reflexivity]]]].
  - intro H. rewrite (N _ H). split; reflexivity.
  - intro H. rewrite (N _ H). split; [reflexivity | apply div_nan_r].
  - intros x E. now rewrite E.
  - intros x E. now rewrite E.
Qed.

(** ** The expenditure normalizer: when it fails *)

(** X2: the expenditure normalizer returns nothing exactly when the raw
    file is absent, or two records share a (category, year), or a
    category is named [year]; whenever it returns nothing it leaves the
    processed store as it was, and otherwise it writes what it returns. *)
Theorem bls_fails_exactly_when :
  forall (raw : Store.Raw) (p : Store.Processed),
    let o := Process.process_bls_expenditure_data raw p in
    (Process.returned o = None <->
     match Store.bls_consumer_expenditure raw with
     | None => True
     | Some rs => ~ NoDup (map Bls.key rs) \/ In "year"%string (map Bls.category rs)
     end)
    /\ (Process.returned o = None -> Process.store o = p)
    /\ (forall out, Process.returned o = Some out ->
        Store.processed_bls_expenditure (Process.store o) = Some out).
Proof.
  intros raw p o. unfold o, Process.process_bls_expenditure_data.
  destruct (Store.bls_consumer_expenditure raw) as [rs|]; cbn.
  2:{ repeat split; try tauto. discriminate. }
  destruct (Bls.pivot rs) as [w|] eqn:Hp; cbn.
  - destruct (pivot_inv rs w Hp) as [N [Y _]].
    split; [split; [discriminate | intros [H | H]; contradiction] |].
    split; [discriminate |]. intros out E. inversion E. reflexivity.
  - split; [| split; [reflexivity | discriminate]].
    split; [intros _ | reflexivity].
    destruct (Labels.has_dup Bls.key_eqb (map Bls.key rs)) eqn:D.
    + left. intro N. apply (has_dup_false Bls.key_eqb bls_key_eqb_eq) in N. congruence.
    + right. apply (has_dup_false Bls.key_eqb bls_key_eqb_eq) in D.
      destruct (in_dec string_dec "year"%string (map Bls.category rs)) as [I | I];
        [exact I |].
      destruct (pivot_succeeds rs D I) as [w E]. congruence.
Qed.

(** X3: when a category is named as the percent-change column of another
    category (and that other is itself no such name), the column of that
    name in the output holds the percent changes of the other category:
    the values recorded under the name are overwritten. *)
Theorem pct_column_overwrites_category :
  forall (raw : Store.Raw) (p : Store.Processed) (rs : list Bls.SeriesRecord)
         (c : string),
    Store.bls_consumer_expenditure raw = Some rs ->
    NoDup (map Bls.key rs) ->
    ~ In "year"%string (map Bls.category rs) ->
    In c (map Bls.category rs) ->
    In (Bls.pct_name c) (map Bls.category rs) ->
    (forall a, In a (map Bls.category rs) -> Bls.pct_name a <> c) ->
    exists out,
      Process.returned (Process.process_bls_expenditure_data raw p) = Some out
      /\ Bls.get_col (Bls.pct_name c) (Bls.value_cols out)
         = Some (Bls.times_100
                   (Bls.pct_change (map (fun y => Bls.cell rs c y) (Bls.year_col out)))).
Proof.
  intros raw p rs c Hraw N Y Hc Hpc Hfree.
  destruct (pivot_succeeds rs N Y) as [w Hp].
  destruct (bls_runs_on_valid_records raw p rs w Hraw Hp) as [R _].
  exists (Bls.add_pct_changes w). split; [exact R|].
  destruct (pivot_inv rs w Hp) as [_ [_ ->]].
  unfold Bls.add_pct_changes. cbn [Bls.value_cols Bls.year_col].
  rewrite (map_map _ fst). cbn [fst]. rewrite map_id.
  set (cats := Labels.sort String.leb (Labels.unique String.eqb (map Bls.category rs))).
  assert (Icats : forall a, In a cats <-> In a (map Bls.category rs))
    by (intro a; apply (index_In String.eqb String.leb String.eqb_eq)).
  apply add_pct_fold_pct.
  - constructor.
    + intro I. apply Icats in I. contradiction.
    + apply (index_NoDup String.eqb String.leb String.eqb_eq).
  - right. now apply Icats.
  - intro E. subst. contradiction.
  - intros a [<- | Ha] Hay; [now contradiction Hay|]. apply Hfree. now apply Icats.
  - apply (get_col_map (fun c => map (fun y => Bls.cell rs c y) _)). now apply Icats.
Qed.

Lemma pct_column_overwrites_category_witness :
  let rs := [Bls.mkSeries "Food" 2020 (F64.of_Z 100);
             Bls.mkSeries "Food" 2021 (F64.of_Z 110);
             Bls.mkSeries "Food_pct_change" 2020 (F64.of_Z 7);
             Bls.mkSeries "Food_pct_change" 2021 (F64.of_Z 8)] in
  let raw := Store.mkRaw (Some rs) None None None None in
  exists out,
    Process.returned (Process.process_bls_expenditure_data raw Store.empty) = Some out
    /\ Bls.get_col "Food_pct_change" (Bls.value_cols out)
       = Some [F64.nan; S754_finite false 5629499534213125 (-49)].
Proof.
  intros rs raw.
  assert (N : NoDup (map Bls.key rs))
    by (apply (has_dup_false Bls.key_eqb bls_key_eqb_eq); reflexivity).
  assert (Y : ~ In "year"%string (map Bls.category rs))
    by (intros [E | [E | [E | [E | []]]]]; discriminate).
  assert (Hc : In "Food"%string (map Bls.category rs)) by (left; reflexivity).
  assert (Hpc : In (Bls.pct_name "Food") (map Bls.category rs))
    by (right; right; left; reflexivity).
  assert (Hfree : forall a, In a (map Bls.category rs) -> Bls.pct_name a <> "Food"%string).
  { intros a [<- | [<- | [<- | [<- | []]]]]; discriminate. }
  destruct (pct_column_overwrites_category raw Store.empty rs "Food"
              eq_refl N Y Hc Hpc Hfree) as [out [R G]].
  exists out. split; [exact R|]. refine (eq_trans G _).
  vm_compute in R. inversion R. vm_compute. reflexivity.
Defined.

(** ** The joiner: the stamped year and the rows of the table *)

Lemma fold_max_spec (r : list Z) :
  forall y, let m := fold_left Z.max r y in
            (m = y \/ In m r) /\ y <= m /\ forall x, In x r -> x <= m.
Proof.
  induction r as [|a r IH]; intro y; simpl.
  - split; [now left | split; [lia | intros x []]].
  - destruct (IH (Z.max y a)) as [H1 [H2 H3]]. split; [| split].
    + destruct H1 as [E | I]; [| right; now right].
      destruct (Z.max_spec y a) as [[_ M] | [_ M]]; rewrite M in *.
      * right. left. symmetry. exact E.
      * left. exact E.
    + lia.
    + intros x [<- | I]; [lia | now apply H3].
Qed.

Lemma max_year_spec (ys : list Z) :
  match Joiner.max_year ys with
  | None => ys = []
  | Some y => In y ys /\ forall x, In x ys -> x <= y
  end.
Proof.
  destruct ys as [|a r]; [reflexivity|]. unfold Joiner.max_year.
  destruct (fold_max_spec r a) as [H1 [H2 H3]]. split.
  - destruct H1 as [E | I]; [left; now symmetry | now right].
  - intros x [<- | I]; [exact H2 | now apply H3].
Qed.

(** X4: the year the joiner stamps on the survey rows, the greatest of the
    year column of the processed expenditure table, is the latest year of
    the raw Series Records; it is null only when there is no record. *)
Theorem stamped_year_is_latest_record_year :
  forall (raw : Store.Raw) (p : Store.Processed) (rs : list Bls.SeriesRecord)
         (out : Bls.Wide),
    Store.bls_consumer_expenditure raw = Some rs ->
    Process.returned (Process.process_bls_expenditure_data raw p) = Some out ->
    match Joiner.max_year (Bls.year_col out) with
    | None => rs = []
    | Some y => (exists r, In r rs /\ Bls.year r = y)
                /\ forall r, In r rs -> Bls.year r <= y
    end.
Proof.
  intros raw p rs out Hraw Hret.
  unfold Process.process_bls_expenditure_data in Hret. rewrite Hraw in Hret.
  destruct (Bls.pivot rs) as [w|] eqn:Hp; [|discriminate].
  cbn in Hret. inversion Hret; subst out. clear Hret.
  destruct (pivot_inv rs w Hp) as [_ [_ ->]].
  unfold Bls.add_pct_changes. cbn [Bls.year_col].
  pose proof (max_year_spec
                (Labels.sort Z.leb (Labels.unique Z.eqb (map Bls.year rs)))) as M.
  destruct (Joiner.max_year _) as [y|].
  - destruct M as [I G]. split.
    + apply (proj1 (index_In Z.eqb Z.leb Z.eqb_eq _ _)) in I.
      apply in_map_iff in I. destruct I as [r [E I]]. now exists r.
    + intros r Ir. apply G.
      apply (proj2 (index_In Z.eqb Z.leb Z.eqb_eq _ _)). now apply in_map.
  - destruct rs as [|r rs']; [reflexivity|]. exfalso.
    assert (I : In (Bls.year r)
                  (Labels.sort Z.leb (Labels.unique Z.eqb (map Bls.year (r :: rs')))))
      by (apply (proj2 (index_In Z.eqb Z.leb Z.eqb_eq _ _)); now left).
    rewrite M in I. contradiction.
Qed.

Lemma stamped_year_is_latest_record_year_witness :
  let rs := [Bls.mkSeries "Food" 2021 (F64.of_Z 110);
             Bls.mkSeries "Housing" 2023 (F64.of_Z 300);
             Bls.mkSeries "Food" 2020 (F64.of_Z 100)] in
  let raw := Store.mkRaw (Some rs) None None None None in
  exists out,
    Process.returned (Process.process_bls_expenditure_data raw Store.empty) = Some out
    /\ Joiner.max_year (Bls.year_col out) = Some 2023
    /\ forall r, In r rs -> Bls.year r <= 2023.
Proof.
  intros rs raw. eexists. split; [vm_compute; reflexivity |].
  split; [reflexivity |].
  exact (proj2 (stamped_year_is_latest_record_year raw Store.empty rs _ eq_refl eq_refl)).
Defined.

Lemma opt_eqb_eq {A : Type} (eqb : A -> A -> bool)
  (eqb_eq : forall x y, eqb x y = true <-> x = y) (a b : option A) :
  Labels.opt_eqb eqb a b = true <-> a = b.
Proof.
  destruct a as [x|], b as [y|]; simpl.
  - rewrite eqb_eq. split; [intros ->; reflexivity | intro H; now inversion H].
  - split; discriminate.
  - split; discriminate.
  - split; reflexivity.
Qed.












(** ** Metro names: the state column and the cleaned name *)

Lemma at_end_line_end (rest : string) :
  MetroName.at_end rest = true -> Props.line_end rest.
Proof.
  destruct rest as [|c [|d r]]; simpl; intro H; try discriminate.
  - now left.
  - right. apply Ascii.eqb_eq in H. now subst.
Qed.

Lemma codes_spec (n : nat) :
  forall s g rest,
    (String.length s <= n)%nat ->
    MetroName.codes s = Some (g, rest) ->
    s = (g ++ rest)%string /\ MetroName.at_end rest = true
    /\ Props.state_code g = true.
Proof.
  induction n as [|n IH]; intros s g rest L H.
  - destruct s as [|a [|b r]]; simpl in *; try discriminate; lia.
  - destruct s as [|a [|b r]]; try discriminate.
    cbn [MetroName.codes] in H.
    destruct (MetroName.upper a && MetroName.upper b)%bool eqn:U; [|discriminate].
    destruct (MetroName.at_end r) eqn:E.
    + inversion H; subst. cbn. rewrite U. auto.
    + destruct r as [|d r']; [discriminate|].
      destruct (Ascii.eqb d "-") eqn:D; [|discriminate].
      destruct (MetroName.codes r') as [[g' rest']|] eqn:C; [|discriminate].
      injection H as <- <-.
      destruct (IH r' g' rest') as [-> [A S]]; [simpl in L; lia | exact C |].
      split; [reflexivity | split; [exact A |]].
      cbn [Props.state_code]. rewrite U, D.
      destruct g' as [|x g'']; [discriminate S | exact S].
Qed.

Lemma suffix_here_spec (s g rest : string) :
  MetroName.suffix_here s = Some (g, rest) ->
  s = (", " ++ g ++ rest)%string /\ Props.line_end rest /\ Props.state_code g = true.
Proof.
  destruct s as [|c [|d r]]; try discriminate. cbn [MetroName.suffix_here].
  destruct (Ascii.eqb c ",") eqn:C; [|discriminate].
  destruct (Ascii.eqb d " ") eqn:D; [|discriminate].
  cbn [andb]. intro H.
  apply Ascii.eqb_eq in C, D. subst.
  destruct (codes_spec (String.length r) r g rest (le_n _) H) as [-> [A S]].
  split; [reflexivity | split; [now apply at_end_line_end | exact S]].
Qed.

Lemma strip_suffix_unfold (s : string) :
  MetroName.strip_suffix s
  = match MetroName.suffix_here s with
    | Some (_, rest) => rest
    | None => match s with
              | EmptyString => EmptyString
              | String c r => String c (MetroName.strip_suffix r)
              end
    end.
Proof. destruct s; reflexivity. Qed.

Lemma search_state_unfold (s : string) :
  MetroName.search_state s
  = match MetroName.suffix_here s with
    | Some (g, _) => Some g
    | None => match s with
              | EmptyString => None
              | String _ r => MetroName.search_state r
              end
    end.
Proof. destruct s; reflexivity. Qed.

(** X8: the [state] column of the metro normalizer and the cleaned name
    of the joiner split a metro name at the same place.  When no state is
    extracted the cleaned name is the name; when a state [g] is extracted
    it is a state code, and the name is the cleaned name's stem, then
    [", "], then [g], then what the cleaned name keeps after the stem
    (nothing, or a final newline). *)
Theorem metro_name_splits :
  forall s : string,
    match MetroName.search_state s with
    | None => MetroName.strip_suffix s = s
    | Some g =>
        Props.state_code g = true
        /\ exists stem rest,
             s = (stem ++ ", " ++ g ++ rest)%string
             /\ MetroName.strip_suffix s = (stem ++ rest)%string
             /\ Props.line_end rest
    end.
Proof.
  induction s as [|c r IH].
  - reflexivity.
  - rewrite search_state_unfold, strip_suffix_unfold.
    destruct (MetroName.suffix_here (String c r)) as [[g rest]|] eqn:E.
    + destruct (suffix_here_spec _ _ _ E) as [-> [L S]].
      split; [exact S|]. exists EmptyString, rest. repeat split; assumption.
    + destruct (MetroName.search_state r) as [g|].
      * destruct IH as [S [stem [rest [Er [E' L]]]]].
        split; [exact S|]. exists (String c stem), rest.
        split; [rewrite Er at 1; reflexivity |].
        split; [rewrite E'; reflexivity | exact L].
      * now rewrite IH.
Qed.

(** On the rows of the metro normalizer: a row without a state keeps its
    name as cleaned name. *)
Lemma metro_without_state_keeps_name :
  forall (str_to_float : string -> option F64.t) (df : list Census.RawRow)
         (m : Census.MetroRow),
    In m (Census.process_metros str_to_float df) ->
    Census.state m = None ->
    MetroName.str_replace_suffix (Census.metro_name m) = Census.metro_name m.
Proof.
  intros f df m I E. unfold Census.process_metros in I. apply in_map_iff in I.
  destruct I as [r [<- _]]. unfold Census.metro_name. cbn in *.
  destruct (Census.raw_name r) as [s|]; [|reflexivity].
  cbn in *. pose proof (metro_name_splits s) as H. rewrite E in H. now rewrite H.
Qed.

(** ** The expenditure normalizer: the shape and the layout of the table *)

Section SortedFacts.
Context {A : Type} (leb : A -> A -> bool).
Hypothesis leb_total : forall a b, leb a b = true \/ leb b a = true.

Lemma insert_hd (R := fun a b => leb a b = true) (x a : A) (l : list A) :
  leb a x = true -> HdRel R a l -> HdRel R a (Labels.insert leb x l).
Proof.
  intros Hax H. destruct l as [|y r]; simpl.
  - now constructor.
  - destruct (leb x y); constructor; [exact Hax | now inversion H].
Qed.

Lemma insert_sorted (x : A) (l : list A) :
  Sorted (fun a b => leb a b = true) l ->
  Sorted (fun a b => leb a b = true) (Labels.insert leb x l).
Proof.
  induction l as [|y r IH]; simpl; intro S.
  - repeat constructor.
  - destruct (leb x y) eqn:E.
    + constructor; [exact S | now constructor].
    + inversion S; subst. constructor; [now apply IH|].
      apply insert_hd; [|assumption].
      destruct (leb_total x y) as [H | H]; [congruence | exact H].
Qed.

Lemma sort_sorted (l : list A) :
  Sorted (fun a b => leb a b = true) (Labels.sort leb l).
Proof.
  induction l as [|x r IH]; simpl; [constructor | now apply insert_sorted].
Qed.

Lemma sorted_distinct (R : A -> A -> Prop) (l : list A) :
  Sorted R l -> NoDup l -> Sorted (fun a b => R a b /\ a <> b) l.
Proof.
  induction l as [|a r IH]; intros S N; [constructor|].
  inversion S; subst. inversion N; subst. constructor; [now apply IH|].
  destruct r as [|b r']; constructor.
  split; [now inversion H2 | intros ->; apply H3; now left].
Qed.

Lemma sorted_weaken (R R' : A -> A -> Prop) (l : list A) :
  (forall a b, R a b -> R' a b) -> Sorted R l -> Sorted R' l.
Proof.
  intros W S. induction S as [|a l S IH Hd]; constructor; [exact IH|].
  destruct Hd; constructor. now apply W.
Qed.

End SortedFacts.

Lemma Z_leb_total (a b : Z) : Z.leb a b = true \/ Z.leb b a = true.
Proof. rewrite !Z.leb_le. lia. Qed.

(** X9: the pivoted table is rectangular and indexed by sorted distinct
    labels.  Its year column holds exactly the years of the records, each
    once, in strictly increasing order; its columns are exactly the
    categories, each once, in ascending order of their names; and every
    column has one cell per year. *)
Theorem pivot_shape :
  forall (rs : list Bls.SeriesRecord) (w : Bls.Wide),
    Bls.pivot rs = Some w ->
    (forall y, In y (Bls.year_col w) <-> In y (map Bls.year rs))
    /\ StronglySorted Props.year_before (Bls.year_col w)
    /\ (forall c, In c (map fst (Bls.value_cols w)) <-> In c (map Bls.category rs))
    /\ NoDup (map fst (Bls.value_cols w))
    /\ Sorted Props.name_before (map fst (Bls.value_cols w))
    /\ Forall (fun col => List.length (snd col) = List.length (Bls.year_col w))
              (Bls.value_cols w).
Proof.
  intros rs w H. destruct (pivot_inv rs w H) as [_ [_ ->]].
  cbn [Bls.year_col Bls.value_cols]. rewrite (map_map _ fst). cbn [fst]. rewrite map_id.
  split; [intro y; apply (index_In Z.eqb Z.leb Z.eqb_eq) |].
  split.
  { apply Sorted_StronglySorted; [intros a b c; unfold Props.year_before; lia |].
    apply (sorted_weaken (fun a b => Z.leb a b = true /\ a <> b)).
    - intros a b [L N]. apply Z.leb_le in L. unfold Props.year_before. lia.
    - apply (sorted_distinct (fun a b => Z.leb a b = true)).
      + apply (sort_sorted Z.leb Z_leb_total).
      + apply (index_NoDup Z.eqb Z.leb Z.eqb_eq). }
  split; [intro c; apply (index_In String.eqb String.leb String.eqb_eq) |].
  split; [apply (index_NoDup String.eqb String.leb String.eqb_eq) |].
  split.
  { apply (sorted_distinct (fun a b => String.leb a b = true)).
    - apply (sort_sorted String.leb String.leb_total).
    - apply (index_NoDup String.eqb String.leb String.eqb_eq). }
  apply Forall_forall. intros col I. apply in_map_iff in I.
  destruct I as [c [<- _]]. cbn. apply length_map.
Qed.

Lemma pivot_shape_witness :
  let rs := [Bls.mkSeries "Housing" 2021 (F64.of_Z 300);
             Bls.mkSeries "Food" 2022 (F64.of_Z 110);
             Bls.mkSeries "Food" 2020 (F64.of_Z 100)] in
  exists w, Bls.pivot rs = Some w
            /\ Bls.year_col w = [2020; 2021; 2022]
            /\ NoDup (map fst (Bls.value_cols w)).
Proof.
  intro rs. eexists. split; [vm_compute; reflexivity |].
  split; [reflexivity |].
  exact (proj1 (proj2 (proj2 (proj2 (pivot_shape rs _ eq_refl))))).
Defined.

Lemma set_col_fresh (n : string) (v : list F64.t) (cols : list (string * list F64.t)) :
  ~ In n (map fst cols) -> Bls.set_col n v cols = cols ++ [(n, v)].
Proof.
  induction cols as [|[k c] r IH]; simpl; intro H; [reflexivity|].
  destruct (String.eqb k n) eqn:E.
  - apply String.eqb_eq in E. exfalso. apply H. now left.
  - rewrite IH; [reflexivity|]. intro I. apply H. now right.
Qed.

Lemma get_col_app (n : string) (xs : list F64.t) (cols more : list (string * list F64.t)) :
  Bls.get_col n cols = Some xs -> Bls.get_col n (cols ++ more) = Some xs.
Proof.
  induction cols as [|[k c] r IH]; simpl; [discriminate|].
  destruct (String.eqb k n); [trivial | exact IH].
Qed.

Lemma add_pct_fold_layout (f : string -> list F64.t) (l : list string) :
  forall acc,
    NoDup l ->
    (forall c, In c l -> c <> "year"%string) ->
    (forall c, In c l -> ~ In (Bls.pct_name c) (map fst acc)) ->
    (forall c, In c l -> Bls.get_col c acc = Some (f c)) ->
    fold_left Bls.add_pct_step l acc
    = acc ++ map (fun c => (Bls.pct_name c, Bls.times_100 (Bls.pct_change (f c)))) l.
Proof.
  induction l as [|a r IH]; intros acc N Hy Hf Hg; simpl.
  - now rewrite app_nil_r.
  - inversion N as [|? ? Ha N']; subst.
    assert (St : Bls.add_pct_step acc a
                 = acc ++ [(Bls.pct_name a, Bls.times_100 (Bls.pct_change (f a)))]).
    { unfold Bls.add_pct_step.
      rewrite (proj2 (String.eqb_neq a "year") (Hy a (or_introl eq_refl))).
      rewrite (Hg a (or_introl eq_refl)). apply set_col_fresh. apply Hf. now left. }
    rewrite St, IH; try assumption.
    + rewrite <- app_assoc. reflexivity.
    + intros c I. apply Hy. now right.
    + intros c I. rewrite map_app, in_app_iff. intros [J | [J | []]].
      * revert J. apply Hf. now right.
      * cbn in J. apply pct_name_inj in J. subst. contradiction.
    + intros c I. apply get_col_app. apply Hg. now right.
Qed.

(** X10: the layout of the processed expenditure table.  When no category
    is named as the percent-change column of a category, the table the
    normalizer returns has, after the year column, the category columns
    of the pivot in their order and then one percent-change column per
    category in the same order: twice as many columns as categories. *)
Theorem processed_bls_layout :
  forall (raw : Store.Raw) (p : Store.Processed) (rs : list Bls.SeriesRecord)
         (w : Bls.Wide),
    Store.bls_consumer_expenditure raw = Some rs ->
    Bls.pivot rs = Some w ->
    (forall a, In a (map Bls.category rs) ->
               ~ In (Bls.pct_name a) (map Bls.category rs)) ->
    exists out,
      Process.returned (Process.process_bls_expenditure_data raw p) = Some out
      /\ Bls.year_col out = Bls.year_col w
      /\ Bls.value_cols out
         = Bls.value_cols w
           ++ map (fun col => (Bls.pct_name (fst col),
                               Bls.times_100 (Bls.pct_change (snd col))))
                  (Bls.value_cols w)
      /\ List.length (Bls.value_cols out)
         = (2 * List.length (Bls.value_cols w))%nat.
Proof.
  intros raw p rs w Hraw Hp Hfree.
  destruct (bls_runs_on_valid_records raw p rs w Hraw Hp) as [R _].
  exists (Bls.add_pct_changes w). split; [exact R|]. split; [reflexivity|].
  assert (L : Bls.value_cols (Bls.add_pct_changes w)
              = Bls.value_cols w
                ++ map (fun col => (Bls.pct_name (fst col),
                                    Bls.times_100 (Bls.pct_change (snd col))))
                       (Bls.value_cols w)).
  { destruct (pivot_inv rs w Hp) as [_ [Hyear ->]].
    unfold Bls.add_pct_changes. cbn [Bls.value_cols Bls.year_col].
    rewrite (map_map _ fst). cbn [fst]. rewrite map_id.
    set (years := Labels.sort Z.leb (Labels.unique Z.eqb (map Bls.year rs))).
    set (cats := Labels.sort String.leb
                   (Labels.unique String.eqb (map Bls.category rs))).
    assert (Icats : forall a, In a cats <-> In a (map Bls.category rs))
      by (intro a; apply (index_In String.eqb String.leb String.eqb_eq)).
    cbn [fold_left]. unfold Bls.add_pct_step at 2. cbn [String.eqb Ascii.eqb Bool.eqb].
    rewrite (add_pct_fold_layout (fun c => map (fun y => Bls.cell rs c y) years)).
    - rewrite map_map. reflexivity.
    - apply (index_NoDup String.eqb String.leb String.eqb_eq).
    - intros c I E. subst. apply Icats in I. contradiction.
    - intros c I. rewrite map_map. cbn [fst]. rewrite map_id. intro J.
      apply (Hfree c); now apply Icats.
    - intros c I. now apply get_col_map. }
  split; [exact L|]. rewrite L, length_app, length_map. lia.
Qed.

Lemma processed_bls_layout_witness :
  let rs := [Bls.mkSeries "Housing" 2020 (F64.of_Z 300);
             Bls.mkSeries "Food" 2020 (F64.of_Z 100)] in
  let raw := Store.mkRaw (Some rs) None None None None in
  exists out,
    Process.returned (Process.process_bls_expenditure_data raw Store.empty) = Some out
    /\ map fst (Bls.value_cols out)
       = ["Food"; "Housing"; "Food_pct_change"; "Housing_pct_change"]%string.
Proof.
  intros rs raw.
  assert (Hfree : forall a, In a (map Bls.category rs) ->
                            ~ In (Bls.pct_name a) (map Bls.category rs)).
  { intros a [<- | [<- | []]] [E | [E | []]]; discriminate. }
  destruct (processed_bls_layout raw Store.empty rs _ eq_refl eq_refl Hfree)
    as [out [R [_ [L _]]]].
  exists out. split; [exact R|]. rewrite L. reflexivity.
Defined.

(** ** The rent benchmark normalizer: what the selection keeps *)

Lemma has_column_get (df : Hud.Frame) (c : string) :
  Hud.has_column df c = true <-> exists col, Hud.get c df = Some col.
Proof.
  unfold Hud.has_column, Hud.columns.
  induction df as [|[n col] r IH]; simpl.
  - split; [discriminate | intros [col H]; discriminate].
  - destruct (String.eqb c n) eqn:E.
    + apply String.eqb_eq in E. subst. rewrite String.eqb_refl.
      split; [intros _; now exists col | reflexivity].
    + rewrite String.eqb_sym, E. exact IH.
Qed.

Lemma has_column_false (df : Hud.Frame) (c : string) :
  Hud.has_column df c = false -> Hud.get c df = None.
Proof.
  intro H. destruct (Hud.get c df) as [col|] eqn:E; [|reflexivity].
  assert (T : Hud.has_column df c = true) by (apply has_column_get; now exists col).
  congruence.
Qed.

Lemma select_present (df : Hud.Frame) (l : list string) :
  Hud.select (filter (Hud.has_column df) l) df = Some (Props.pick l df).
Proof.
  induction l as [|c r IH]; [reflexivity|].
  cbn [filter Props.pick flat_map]. destruct (Hud.has_column df c) eqn:E.
  - apply has_column_get in E. destruct E as [col E].
    cbn [Hud.select]. rewrite E, IH. reflexivity.
  - rewrite (has_column_false df c E). exact IH.
Qed.

Lemma pick_columns (df : Hud.Frame) (l : list string) :
  Hud.columns (Props.pick l df) = filter (Hud.has_column df) l.
Proof.
  unfold Hud.columns. induction l as [|c r IH]; [reflexivity|].
  cbn [filter Props.pick flat_map]. rewrite map_app.
  fold (Props.pick r df). rewrite IH.
  destruct (Hud.has_column df c) eqn:E.
  - apply has_column_get in E. destruct E as [col E]. now rewrite E.
  - now rewrite (has_column_false df c E).
Qed.

Lemma get_pick (df : Hud.Frame) (l : list string) (c : string) :
  Hud.get c (Props.pick l df)
  = if existsb (String.eqb c) l then Hud.get c df else None.
Proof.
  induction l as [|a r IH]; [reflexivity|].
  cbn [Props.pick flat_map existsb]. fold (Props.pick r df).
  destruct (String.eqb c a) eqn:E.
  - apply String.eqb_eq in E. subst a. cbn [orb].
    destruct (Hud.get c df) as [col|] eqn:G.
    + cbn. now rewrite String.eqb_refl.
    + cbn [app]. rewrite IH. rewrite ?G. now destruct (existsb (String.eqb c) r).
  - cbn [orb]. destruct (Hud.get a df) as [col|]; [|exact IH].
    cbn. rewrite String.eqb_sym, E. exact IH.
Qed.

Lemma select_same (K df : Hud.Frame) (names : list string) :
  (forall c, In c names -> Hud.get c K = Hud.get c df) ->
  Hud.select names K = Hud.select names df.
Proof.
  induction names as [|c r IH]; intro H; [reflexivity|].
  cbn [Hud.select]. rewrite (H c) by now left.
  rewrite IH; [reflexivity|]. intros d I. apply H. now right.
Qed.

Lemma filter_comm {A : Type} (p q : A -> bool) (l : list A) :
  filter p (filter q l) = filter q (filter p l).
Proof.
  induction l as [|a r IH]; [reflexivity|]. simpl.
  destruct (q a) eqn:Q, (p a) eqn:P; simpl; rewrite ?Q, ?P, IH; reflexivity.
Qed.

Lemma assign_fresh (c : string) (col : Hud.column) (df : Hud.Frame) :
  ~ In c (Hud.columns df) -> Hud.assign c col df = df ++ [(c, col)].
Proof.
  unfold Hud.columns. induction df as [|[n old] r IH]; simpl; intro H; [reflexivity|].
  destruct (String.eqb n c) eqn:E.
  - apply String.eqb_eq in E. exfalso. apply H. now left.
  - rewrite IH; [reflexivity|]. intro I. apply H. now right.
Qed.

(** X11: what the selection of the rent normalizer computes, whatever the
    frame.  Picking the columns never fails, since only the names the
    frame has are asked for; without a rent column the result is the
    allow-listed columns of the frame in the order of the allow-list;
    with rent columns it is those columns followed by [avg_rent], the
    average of the rent columns, and it fails exactly when the average
    does. *)
Theorem select_and_average_spec :
  forall (mean_axis1 : Hud.Frame -> option (list F64.t)) (df : Hud.Frame),
    Hud.select_and_average mean_axis1 df
    = match Props.rents df with
      | [] => Some (Props.kept df)
      | _ :: _ =>
          match mean_axis1 (Props.rents df) with
          | None => None
          | Some avg => Some (Props.kept df ++ [("avg_rent"%string, Hud.NumCol avg)])
          end
      end.
Proof.
  intros mean df. unfold Hud.select_and_average, Props.kept, Props.rents.
  rewrite select_present, pick_columns, filter_comm.
  set (fmr := filter Hud.startswith_fmr Hud.cols_to_keep).
  assert (S : Hud.select (filter (Hud.has_column df) fmr)
                (Props.pick Hud.cols_to_keep df)
              = Some (Props.pick fmr df)).
  { rewrite <- select_present. apply select_same. intros c I.
    rewrite get_pick. apply filter_In in I. destruct I as [I _].
    assert (E : existsb (String.eqb c) Hud.cols_to_keep = true).
    { apply existsb_exists. exists c. split; [|apply String.eqb_refl].
      unfold fmr in I. apply filter_In in I. apply I. }
    now rewrite E. }
  assert (C : Hud.columns (Props.pick fmr df) = filter (Hud.has_column df) fmr)
    by apply pick_columns.
  destruct (filter (Hud.has_column df) fmr) as [|c r] eqn:F.
  - destruct (Props.pick fmr df) as [|x xs]; [reflexivity | discriminate C].
  - rewrite S. destruct (Props.pick fmr df) as [|x xs] eqn:P; [discriminate C|].
    destruct (mean (x :: xs)) as [avg|]; [|reflexivity].
    rewrite assign_fresh; [reflexivity|].
    rewrite pick_columns. intro I. apply filter_In in I. destruct I as [I _].
    revert I. vm_compute. intuition discriminate.
Qed.

(** X12: what the rent stage returns and writes, for every raw frame: the
    allow-listed columns when the frame has no rent column; those columns
    and [avg_rent] when it has and the average succeeds; the raw frame
    itself only when the average fails.  A frame that merely lacks
    allow-listed columns is projected, never passed through. *)
Theorem hud_stage_result :
  forall (mean_axis1 : Hud.Frame -> option (list F64.t))
         (raw : Store.Raw) (p : Store.Processed) (df : Hud.Frame),
    Store.hud_fair_market_rent raw = Some df ->
    let o := Process.process_hud_rent_data mean_axis1 raw p in
    let result :=
      match Props.rents df with
      | [] => Props.kept df
      | _ :: _ =>
          match mean_axis1 (Props.rents df) with
          | Some avg => Props.kept df ++ [("avg_rent"%string, Hud.NumCol avg)]
          | None => df
          end
      end in
    Process.returned o = Some result
    /\ Store.processed_hud_rent (Process.store o) = Some result.
Proof.
  intros mean raw p df Hraw o. unfold o, Process.process_hud_rent_data.
  rewrite Hraw, select_and_average_spec.
  destruct (Props.rents df) as [|x xs]; [split; reflexivity|].
  destruct (mean (x :: xs)) as [avg|]; split; reflexivity.
Qed.

Lemma hud_stage_result_witness :
  let df : Hud.Frame :=
    [("pop2017"%string, Hud.NumCol [F64.of_Z 170000]);
     ("state"%string, Hud.TextCol [Some "TX"%string]);
     ("area_name"%string, Hud.TextCol [Some "Abilene, TX MSA"%string])] in
  let raw := Store.mkRaw None None None (Some df) None in
  Process.returned (Process.process_hud_rent_data (fun _ => None) raw Store.empty)
  = Some [("area_name"%string, Hud.TextCol [Some "Abilene, TX MSA"%string]);
          ("state"%string, Hud.TextCol [Some "TX"%string])].
Proof.
  intros df raw.
  exact (proj1 (hud_stage_result (fun _ => None) raw Store.empty df eq_refl)).
Defined.

(** ** The migration normalizer: the groups of a view *)




(** The two views are such tables. *)
Lemma views_are_groups (df : list Migration.Edge) :
  map (fun r => (Migration.in_destination_metro r, Migration.in_year r,
                 Migration.total_inflow r)) (Migration.inflow_by_dest df)
  = map (fun g => (Some (fst (fst g)), Some (snd (fst g)), snd g))
        (Migration.groupby_sum Migration.destination_metro df)
  /\ map (fun r => (Migration.out_origin_metro r, Migration.out_year r,
                    Migration.total_outflow r)) (Migration.outflow_by_origin df)
     = map (fun g => (Some (fst (fst g)), Some (snd (fst g)), snd g))
           (Migration.groupby_sum Migration.origin_metro df).
Proof.
  unfold Migration.inflow_by_dest, Migration.outflow_by_origin.
  rewrite !map_map. split; reflexivity.
Qed.

(** ** The migration normalizer: the destinations table *)

Section Indicator.
Context {K : Type} (eqb : K -> K -> bool).
Hypothesis eqb_eq : forall x y, eqb x y = true <-> x = y.



End Indicator.








(** ** The generator: the edges it makes *)

Lemma edge_key_eqb_eq (p q : option Z * option string * option string) :
  Props.edge_key_eqb p q = true <-> p = q.
Proof.
  destruct p as [[a b] c], q as [[a' b'] c']. unfold Props.edge_key_eqb. cbn.
  rewrite !andb_true_iff, (opt_eqb_eq Z.eqb Z.eqb_eq),
    !(opt_eqb_eq String.eqb String.eqb_eq).
  split; [intros [[-> ->] ->]; reflexivity | intro H; inversion H; auto].
Qed.

Section GeneratorShape.
Variable rng : Type.
Variable normal : F64.t -> F64.t -> rng -> F64.t * rng.

Lemma for_dests_keys year origin outflow dests :
  forall st data st',
    Acquire.for_dests rng normal year origin outflow dests st = Some (data, st') ->
    map Props.edge_key data = map (fun d => (Some year, Some origin, Some d)) dests.
Proof.
  induction dests as [|dest rest IH]; simpl; intros st data st' H.
  - now inversion H.
  - destruct (normal _ _ st) as [noise st1].
    destruct (F64.to_int _) as [k|]; [|discriminate].
    destruct (Acquire.for_dests rng normal year origin outflow rest st1)
      as [[d s2]|] eqn:E; [|discriminate].
    inversion H; subst. cbn. f_equal. exact (IH _ _ _ E).
Qed.

Lemma for_origins_keys year origins :
  forall st data st',
    Acquire.for_origins rng normal year origins st = Some (data, st') ->
    map Props.edge_key data
    = flat_map (fun o => map (fun d => (Some year, Some o, Some d)) Acquire.inflow_metros)
               origins.
Proof.
  induction origins as [|origin rest IH]; intros st data st' H.
  - now inversion H.
  - cbn [Acquire.for_origins] in H.
    destruct (normal _ _ st) as [noise st1].
    destruct (F64.to_int _) as [outflow|]; [|discriminate].
    destruct (Acquire.for_dests rng normal year origin outflow
                Acquire.inflow_metros st1) as [[d s2]|] eqn:E; [|discriminate].
    destruct (Acquire.for_origins rng normal year rest s2) as [[m s3]|] eqn:E';
      [|discriminate].
    inversion H; subst. cbn [flat_map]. rewrite map_app. f_equal.
    + exact (for_dests_keys _ _ _ _ _ _ _ E).
    + exact (IH _ _ _ E').
Qed.

Lemma for_years_keys ys :
  forall st data st',
    Acquire.for_years rng normal ys st = Some (data, st') ->
    map Props.edge_key data = Props.all_keys ys.
Proof.
  induction ys as [|y rest IH]; intros st data st' H.
  - now inversion H.
  - cbn [Acquire.for_years] in H.
    destruct (Acquire.for_origins rng normal y Acquire.outflow_metros st)
      as [[d s1]|] eqn:E; [|discriminate].
    destruct (Acquire.for_years rng normal rest s1) as [[m s2]|] eqn:E';
      [|discriminate].
    inversion H; subst. unfold Props.all_keys. cbn [flat_map]. rewrite map_app. f_equal.
    + exact (for_origins_keys _ _ _ _ _ E).
    + exact (IH _ _ _ E').
Qed.

End GeneratorShape.

Lemma get_migration_data_keys :
  forall (rng : Type) (seed : Z -> rng)
         (normal : F64.t -> F64.t -> rng -> F64.t * rng)
         (g : rng) (raw : Store.Raw) (df : list Migration.Edge),
    fst (fst (Acquire.get_migration_data rng seed normal g raw)) = Some df ->
    map Props.edge_key df = Props.all_keys Acquire.years
    /\ Store.synthetic_migration_data
         (snd (fst (Acquire.get_migration_data rng seed normal g raw))) = Some df.
Proof.
  intros rng seed normal g raw df H. unfold Acquire.get_migration_data in *.
  destruct (Acquire.for_years rng normal Acquire.years (seed 42))
    as [[d s]|] eqn:E; cbn in H; [|discriminate].
  inversion H; subst d. cbn [fst snd Store.synthetic_migration_data].
  rewrite (for_years_keys rng normal _ _ _ _ E). split; reflexivity.
Qed.

(** X15: whatever the generator draws, the frame it returns has exactly
    one edge for each year of 2018..2022, each of the five origins and
    each of the ten destinations, in that nesting order; and that frame
    is what it writes as the raw migration file. *)
Theorem generated_edges_cover_the_grid :
  forall (rng : Type) (seed : Z -> rng)
         (normal : F64.t -> F64.t -> rng -> F64.t * rng)
         (g : rng) (raw : Store.Raw) (df : list Migration.Edge),
    fst (fst (Acquire.get_migration_data rng seed normal g raw)) = Some df ->
    map Props.edge_key df = Props.all_keys Acquire.years
    /\ NoDup (map Props.edge_key df)
    /\ Store.synthetic_migration_data
         (snd (fst (Acquire.get_migration_data rng seed normal g raw))) = Some df.
Proof.
  intros rng seed normal g raw df H.
  destruct (get_migration_data_keys rng seed normal g raw df H) as [K W].
  split; [exact K | split; [| exact W]]. rewrite K.
  apply (has_dup_false Props.edge_key_eqb edge_key_eqb_eq). vm_compute. reflexivity.
Qed.

Lemma generated_edges_cover_the_grid_witness :
  exists df,
    fst (fst (Acquire.get_migration_data unit (fun _ => tt) Acquire.mean_normal tt
                (Store.mkRaw None None None None None))) = Some df
    /\ map Props.edge_key df = Props.all_keys Acquire.years.
Proof.
  eexists. split; [vm_compute; reflexivity |].
  apply (generated_edges_cover_the_grid unit (fun _ => tt) Acquire.mean_normal tt
           (Store.mkRaw None None None None None)).
  vm_compute. reflexivity.
Defined.

(** ** From the generator to the normalizer *)





(** ** [main] of the processing script *)









(** ** The expenditure fetcher *)

Section FetchFacts.
Variable py_float : string -> option F64.t.

Lemma for_items_spec (cat : string) (items : list Fetch.Item) :
  match Fetch.for_items py_float cat items with
  | Some rows =>
      (forall item, In item items -> py_float (Fetch.item_value item) <> None)
      /\ rows = map (fun item =>
                       Fetch.mkRow cat (Fetch.item_year item)
                         (match py_float (Fetch.item_value item) with
                          | Some v => v
                          | None => F64.nan
                          end)) items
  | None => exists item, In item items /\ py_float (Fetch.item_value item) = None
  end.
Proof.
  induction items as [|item rest IH]; cbn [Fetch.for_items].
  - split; [intros item [] | reflexivity].
  - destruct (py_float (Fetch.item_value item)) as [v|] eqn:E.
    + destruct (Fetch.for_items py_float cat rest) as [rows|].
      * destruct IH as [A ->]. split.
        -- intros it [<- | I]; [congruence | now apply A].
        -- cbn [map]. now rewrite E.
      * destruct IH as [it [I N]]. exists it. split; [now right | exact N].
    + exists item. split; [now left | exact E].
Qed.

Lemma for_series_spec (l : list Fetch.Series) :
  match Fetch.for_series py_float l with
  | Some rows =>
      (forall sd item, In sd l -> In item (Fetch.data sd) ->
                       py_float (Fetch.item_value item) <> None)
      /\ rows = Props.rows_of py_float (Fetch.mkResponse "" "" l)
  | None => exists sd item, In sd l /\ In item (Fetch.data sd)
                            /\ py_float (Fetch.item_value item) = None
  end.
Proof.
  unfold Props.rows_of. cbn [Fetch.series].
  induction l as [|sd rest IH]; cbn [Fetch.for_series].
  - split; [intros sd item [] | reflexivity].
  - pose proof (for_items_spec (Fetch.category_of (Fetch.seriesID sd)) (Fetch.data sd)) as H.
    destruct (Fetch.for_items py_float _ (Fetch.data sd)) as [rows|].
    + destruct H as [A ->].
      destruct (Fetch.for_series py_float rest) as [more|].
      * destruct IH as [B ->]. split; [| reflexivity].
        intros sd' it [<- | I] J; [now apply A | now apply (B sd')].
      * destruct IH as [sd' [it [I [J N]]]]. exists sd', it.
        split; [now right | split; assumption].
    + destruct H as [it [I N]]. exists sd, it.
      split; [now left | split; assumption].
Qed.

End FetchFacts.

(** X19: the expenditure fetch is all or nothing.  It returns a frame
    exactly when the request was answered, the answer's status is
    [REQUEST_SUCCEEDED] and every value converts to a number; the frame
    then has one row per observation, in the order of the answer, with
    the category of its series; and the fetcher writes the raw file
    exactly when it returns a frame, with that frame.  One value that does
    not convert discards the whole answer. *)
Theorem bls_fetch_all_or_nothing :
  forall (py_float : string -> option F64.t) (api_key : option string)
         (answer : option Fetch.Response),
    let r := Fetch.get_bls_expenditure_data py_float api_key answer in
    Fetch.written r = Fetch.returned r
    /\ match Fetch.returned r with
       | Some df =>
           exists result,
             answer = Some result
             /\ Fetch.status result = "REQUEST_SUCCEEDED"%string
             /\ Props.all_convert py_float result
             /\ df = Props.rows_of py_float result
       | None =>
           forall result,
             answer = Some result ->
             Fetch.status result = "REQUEST_SUCCEEDED"%string ->
             ~ Props.all_convert py_float result
       end.
Proof.
  intros py_float key answer r. unfold r, Fetch.get_bls_expenditure_data.
  destruct answer as [result|]; cbn [Fetch.returned Fetch.written].
  2:{ split; [reflexivity | discriminate]. }
  destruct (String.eqb (Fetch.status result) "REQUEST_SUCCEEDED") eqn:S.
  - apply String.eqb_eq in S.
    pose proof (for_series_spec py_float (Fetch.series result)) as H.
    destruct (Fetch.for_series py_float (Fetch.series result)) as [df|];
      cbn [Fetch.returned Fetch.written]; (split; [reflexivity|]).
    + destruct H as [A ->]. exists result. repeat split; try assumption.
    + destruct H as [sd [it [I [J N]]]].
      intros result' E _ C. inversion E; subst result'. exact (C sd it I J N).
  - cbn [Fetch.returned Fetch.written]. split; [reflexivity|].
    intros result' E St. inversion E; subst result'.
    rewrite St in S. discriminate.
Qed.

Example bls_fetch_example :
  let parse := fun s : string => if String.eqb s "100.5" then Some (Acquire.lit 201 2)
                                 else if String.eqb s "7" then Some (F64.of_Z 7)
                                 else None in
  let good := Fetch.mkResponse "REQUEST_SUCCEEDED" ""
                [Fetch.mkSeries "CXUT0200AA" [Fetch.mkItem "2021" "100.5"];
                 Fetch.mkSeries "CXUX9999ZZ" [Fetch.mkItem "2021" "7"]] in
  let bad := Fetch.mkResponse "REQUEST_SUCCEEDED" ""
               [Fetch.mkSeries "CXUT0200AA" [Fetch.mkItem "2021" "100.5"];
                Fetch.mkSeries "CXUT0400AA" [Fetch.mkItem "2021" "-"]] in
  Fetch.returned (Fetch.get_bls_expenditure_data parse None (Some good))
  = Some [Fetch.mkRow "Food" "2021" (Acquire.lit 201 2);
          Fetch.mkRow "CXUX9999ZZ" "2021" (F64.of_Z 7)]
  /\ Fetch.written (Fetch.get_bls_expenditure_data parse None (Some bad)) = None.
Proof. vm_compute. split; reflexivity. Qed.

(** ** The driver *)

Ltac log_cases :=
  repeat match goal with
         | H : In _ (_ ++ _) |- _ => apply in_app_or in H; destruct H as [H | H]
         | H : In _ (map _ _) |- _ =>
             apply in_map_iff in H; destruct H as [? [H _]]
         | H : In _ (_ :: _) |- _ => destruct H as [H | H]
         | H : In _ [] |- _ => destruct H
         | H : (_, _) = (_, _) |- _ => cbn in H; discriminate H
         end.

Ltac driver_goal :=
  first
    [ reflexivity
    | tauto
    | discriminate
    | solve [intros; rewrite !in_app_iff; cbn [In]; intuition reflexivity]
    | solve [intros; exfalso; log_cases] ].

Section DriverFacts.
Variable world : Type.
Variable exec : string -> world -> Driver.Completed * world.
Variable elapsed : world -> world -> string.
Variable now : world -> string.
Variable show_int : Z -> string.

Lemma run_script_result (script_path description : string) (w : world) :
  fst (Driver.run_script world exec elapsed show_int script_path description w)
  = (Z.eqb (Driver.returncode (fst (exec script_path w))) 0, snd (exec script_path w)).
Proof.
  unfold Driver.run_script. destruct (exec script_path w) as [result w'].
  cbn [fst snd]. destruct (Z.eqb (Driver.returncode result) 0); reflexivity.
Qed.

(** X20: the driver stops at the first step that fails.  It succeeds
    (and the process exits with 0) exactly when the four scripts, each run
    on the machine as the one before left it, all exit with 0; the
    machine is left as the last script run left it; and a later step is
    started, as the log shows, exactly when every step before it exited
    with 0. *)
Theorem pipeline_stops_at_first_failure :
  forall w : world,
    let r1 := exec Driver.data_acquisition_script w in
    let r2 := exec Driver.data_processing_script (snd r1) in
    let r3 := exec Driver.visualization_script (snd r2) in
    let r4 := exec Driver.modeling_script (snd r3) in
    let ok r := Driver.returncode (fst r) = 0 in
    let run := Driver.main world exec elapsed now show_int w in
    (fst (fst run) = true <-> ok r1 /\ ok r2 /\ ok r3 /\ ok r4)
    /\ (Driver.exit_status world exec elapsed now show_int w = 0
        <-> fst (fst run) = true)
    /\ snd (fst run)
       = (if Z.eqb (Driver.returncode (fst r1)) 0 then
            if Z.eqb (Driver.returncode (fst r2)) 0 then
              if Z.eqb (Driver.returncode (fst r3)) 0 then snd r4 else snd r3
            else snd r2
          else snd r1)
    /\ (Props.started "data processing" (snd run) <-> ok r1)
    /\ (Props.started "data visualization" (snd run) <-> ok r1 /\ ok r2)
    /\ (Props.started "modeling and prediction" (snd run)
        <-> ok r1 /\ ok r2 /\ ok r3).
Proof.
  intros w r1 r2 r3 r4 ok run.
  unfold run, Driver.exit_status, Driver.main, Driver.run_script, Props.started,
    Driver.tagged, ok, r4, r3, r2, r1.
  destruct (exec Driver.data_acquisition_script w) as [c1 w1]. cbn [fst snd].
  destruct (Z.eqb_spec (Driver.returncode c1) 0) as [E1 | E1]; cbn [negb fst snd].
  2:{ cbn [List.concat]. repeat split; driver_goal. }
  destruct (exec Driver.data_processing_script w1) as [c2 w2]. cbn [fst snd].
  destruct (Z.eqb_spec (Driver.returncode c2) 0) as [E2 | E2]; cbn [negb fst snd].
  2:{ cbn [List.concat]. repeat split; driver_goal. }
  destruct (exec Driver.visualization_script w2) as [c3 w3]. cbn [fst snd].
  destruct (Z.eqb_spec (Driver.returncode c3) 0) as [E3 | E3]; cbn [negb fst snd].
  2:{ cbn [List.concat]. repeat split; driver_goal. }
  destruct (exec Driver.modeling_script w3) as [c4 w4]. cbn [fst snd].
  destruct (Z.eqb_spec (Driver.returncode c4) 0) as [E4 | E4]; cbn [negb fst snd].
  2:{ cbn [List.concat]. repeat split; driver_goal. }
  cbn [List.concat]. repeat split; driver_goal.
Qed.

End DriverFacts.
